(** * primitives/block.h of qtum-bitcore: block headers, blocks, locators

    A shallow embedding of [CBlockHeader], [CBlock] and [CBlockLocator]
    with their stake derivation, copy and serialization code, and the
    properties of the block specification proved (or refuted) on it. *)

From Stdlib Require Import ZArith List Bool Lia.
From Stdlib Require Strings.Byte.
From stdpp Require Import base option list gmap.

Local Open Scope Z_scope.

Abbreviation byte := Byte.byte.

(** ** Results of code that can go wrong

    [std::vector::operator[]] does not check its index; an access beyond
    [size()] is undefined behaviour and is recorded as [OutOfRange].
    Reading from a stream that does not hold a value throws; that is
    [IoFailure].  [Dangling] is the use of an address that holds no
    object. *)

Inductive fault : Type := OutOfRange | IoFailure | Dangling.

Inductive res (A : Type) : Type :=
  | Ok (a : A)
  | Fault (f : fault).

Arguments Ok {A} a.
Arguments Fault {A} f.

#[global] Instance res_ret : MRet res := λ A a, Ok a.

#[global] Instance res_bind : MBind res := λ A B k m,
  match m with
  | Ok a => k a
  | Fault f => Fault f
  end.

(** [v[i]] on a [std::vector]. *)
Definition at_ {A : Type} (v : list A) (i : nat) : res A :=
  match v !! i with
  | Some x => Ok x
  | None => Fault OutOfRange
  end.

(** ** What block.h takes from primitives/transaction.h and uint256.h

    Neither header is part of the sources at hand: the types and the
    members block.h uses are the fields of this interface.
    [COutPoint_null] is the value the default constructor [COutPoint()]
    builds, [uint256_null] the value [uint256::SetNull] stores. *)

Class External : Type := {
  uint256 : Type;
  uint256_null : uint256;
  COutPoint : Type;
  COutPoint_null : COutPoint;
  CTxIn : Type;
  prevout : CTxIn → COutPoint;
  CTransaction : Type;
  vin : CTransaction → list CTxIn;
  tx_nTime : CTransaction → Z;
  IsCoinStake : CTransaction → bool
}.

Section Block.
Context `{Ext : External}.

(** ** CBlockHeader *)

Record CBlockHeader : Type := mkHeader {
  nVersion : Z;
  hashPrevBlock : uint256;
  hashMerkleRoot : uint256;
  nTime : Z;
  nBits : Z;
  nNonce : Z;
  hashStateRoot : uint256;
  vchBlockSig : list byte;
  fStake : bool;
  prevoutStake : COutPoint;
  nStakeTime : Z
}.

Definition CBlockHeader_SetNull (_ : CBlockHeader) : CBlockHeader :=
  {| nVersion := 0;
     hashPrevBlock := uint256_null;
     hashMerkleRoot := uint256_null;
     nTime := 0;
     nBits := 0;
     nNonce := 0;
     hashStateRoot := uint256_null;
     vchBlockSig := [];
     fStake := false;
     prevoutStake := COutPoint_null;
     nStakeTime := 0 |}.

(** The constructor [CBlockHeader()] only calls [SetNull]. *)
Definition CBlockHeader_new : CBlockHeader :=
  {| nVersion := 0;
     hashPrevBlock := uint256_null;
     hashMerkleRoot := uint256_null;
     nTime := 0;
     nBits := 0;
     nNonce := 0;
     hashStateRoot := uint256_null;
     vchBlockSig := [];
     fStake := false;
     prevoutStake := COutPoint_null;
     nStakeTime := 0 |}.

Definition CBlockHeader_IsNull (h : CBlockHeader) : bool := nBits h =? 0.

Definition CBlockHeader_GetBlockTime (h : CBlockHeader) : Z := nTime h.

Definition CBlockHeader_IsProofOfStake (h : CBlockHeader) : bool := fStake h.

Definition CBlockHeader_PrevoutStake (h : CBlockHeader) : COutPoint :=
  prevoutStake h.

Definition CBlockHeader_StakeTime (h : CBlockHeader) : Z := nStakeTime h.

(** ** CBlock

    [header] is the [CBlockHeader] base sub-object.  A [CTransactionRef]
    is a shared pointer to an immutable transaction; the list holds the
    transactions pointed to. *)

Record CBlock : Type := mkBlock {
  header : CBlockHeader;
  vtx : list CTransaction;
  fChecked : bool
}.

Definition CBlock_SetNull (b : CBlock) : CBlock :=
  {| header := CBlockHeader_SetNull (header b);
     vtx := [];
     fChecked := false |}.

Definition CBlock_new : CBlock :=
  {| header := CBlockHeader_new; vtx := []; fChecked := false |}.

Definition CBlock_IsProofOfStake (b : CBlock) : res bool :=
  if (length (vtx b) =? 0)%nat then Ok (fStake (header b))
  else if (1 <? length (vtx b))%nat
       then t ← at_ (vtx b) 1; Ok (IsCoinStake t)
       else Ok false.

Definition CBlock_PrevoutStake (b : CBlock) : res COutPoint :=
  if (length (vtx b) =? 0)%nat then Ok (prevoutStake (header b))
  else
    pos ← CBlock_IsProofOfStake b;
    if (pos : bool)
    then t ← at_ (vtx b) 1; i ← at_ (vin t) 0; Ok (prevout i)
    else Ok COutPoint_null.

Definition CBlock_StakeTime (b : CBlock) : res Z :=
  if (length (vtx b) =? 0)%nat then Ok (nStakeTime (header b))
  else
    pos ← CBlock_IsProofOfStake b;
    if (pos : bool)
    then t ← at_ (vtx b) 1; Ok (tx_nTime t)
    else Ok 0.

Definition CBlock_GetProofOfStake (b : CBlock) : res (COutPoint * Z) :=
  pos ← CBlock_IsProofOfStake b;
  if (pos : bool)
  then t ← at_ (vtx b) 1; i ← at_ (vin t) 0;
       t' ← at_ (vtx b) 1; Ok (prevout i, tx_nTime t')
  else Ok (COutPoint_null, 0).

(** [PrevoutStake] and [GetProofOfStake] read the stake outpoint through
    an unchecked [vin[0]]; it is there as soon as a transaction marked
    coinstake has an input. *)
Definition coinstake_has_input (b : CBlock) : Prop :=
  ∀ t, vtx b !! 1%nat = Some t → IsCoinStake t = true → vin t ≠ [].

Definition CBlock_GetBlockHeader (b : CBlock) : res CBlockHeader :=
  f ← CBlock_IsProofOfStake b;
  p ← CBlock_PrevoutStake b;
  t ← CBlock_StakeTime b;
  Ok {| nVersion := nVersion (header b);
        hashPrevBlock := hashPrevBlock (header b);
        hashMerkleRoot := hashMerkleRoot (header b);
        nTime := nTime (header b);
        nBits := nBits (header b);
        nNonce := nNonce (header b);
        hashStateRoot := hashStateRoot (header b);
        vchBlockSig := vchBlockSig (header b);
        fStake := f;
        prevoutStake := p;
        nStakeTime := t |}.

(** ** Virtual dispatch

    What a [CBlockHeader&] refers to is a header of its own or the base
    sub-object of a block; the virtual members run the code of that
    dynamic type. *)

Inductive Object : Type :=
  | ObjHeader (h : CBlockHeader)
  | ObjBlock (b : CBlock).

Definition base (o : Object) : CBlockHeader :=
  match o with
  | ObjHeader h => h
  | ObjBlock b => header b
  end.

Definition with_base (h : CBlockHeader) (o : Object) : Object :=
  match o with
  | ObjHeader _ => ObjHeader h
  | ObjBlock b => ObjBlock {| header := h; vtx := vtx b; fChecked := fChecked b |}
  end.

Definition IsProofOfStake (o : Object) : res bool :=
  match o with
  | ObjHeader h => Ok (CBlockHeader_IsProofOfStake h)
  | ObjBlock b => CBlock_IsProofOfStake b
  end.

(** [IsProofOfWork] is not overridden by [CBlock]. *)
Definition IsProofOfWork (o : Object) : res bool :=
  pos ← IsProofOfStake o; Ok (negb pos).

Definition PrevoutStake (o : Object) : res COutPoint :=
  match o with
  | ObjHeader h => Ok (CBlockHeader_PrevoutStake h)
  | ObjBlock b => CBlock_PrevoutStake b
  end.

Definition StakeTime (o : Object) : res Z :=
  match o with
  | ObjHeader h => Ok (CBlockHeader_StakeTime h)
  | ObjBlock b => CBlock_StakeTime b
  end.

(** ** Copying: [CBlockHeader::operator=]

    [header_copy other] is the value the eleven statements inside the
    guard store into [*this]: eight fields of [other] and the results
    of its three virtual members. *)

Definition header_copy (other : Object) : res CBlockHeader :=
  f ← IsProofOfStake other;
  p ← PrevoutStake other;
  t ← StakeTime other;
  Ok {| nVersion := nVersion (base other);
        hashPrevBlock := hashPrevBlock (base other);
        hashMerkleRoot := hashMerkleRoot (base other);
        nTime := nTime (base other);
        nBits := nBits (base other);
        nNonce := nNonce (base other);
        hashStateRoot := hashStateRoot (base other);
        vchBlockSig := vchBlockSig (base other);
        fStake := f;
        prevoutStake := p;
        nStakeTime := t |}.

Definition deref (σ : gmap nat Object) (a : nat) : res Object :=
  match σ !! a with
  | Some o => Ok o
  | None => Fault Dangling
  end.

(** Objects live at addresses; [this] and [other] are the addresses the
    two references denote, so that [this != &other] can be decided. *)
Definition CBlockHeader_assign (this other : nat) (σ : gmap nat Object)
  : res (gmap nat Object) :=
  d ← deref σ this;
  o ← deref σ other;
  if decide (this ≠ other)
  then h ← header_copy o; Ok (<[this := with_base h d]> σ)
  else Ok σ.

(** [CBlock(const CBlockHeader&)]: the block under construction is a new
    object, never the one [hdr] refers to. *)
Definition CBlock_of_header (hdr : Object) : res CBlock :=
  h ← header_copy hdr;
  Ok {| header := h; vtx := []; fChecked := false |}.

(** ** CBlockLocator *)

Record CBlockLocator : Type := mkLocator { vHave : list uint256 }.

Definition CBlockLocator_new : CBlockLocator := {| vHave := [] |}.

Definition CBlockLocator_SetNull (_ : CBlockLocator) : CBlockLocator :=
  {| vHave := [] |}.

Definition CBlockLocator_IsNull (l : CBlockLocator) : bool :=
  match vHave l with
  | [] => true
  | _ :: _ => false
  end.

End Block.

(** ** Serialization

    serialize.h is not part of the sources at hand.  Its overloads of
    [Serialize] and [Unserialize] for the field types are taken as
    codecs: [put] gives the bytes written for a value, [get] reads a
    value off the front of the pending bytes, [fits] tells the values
    the wire form can hold (an unsigned 32-bit field holds a [Z] below
    [2^32]).  Only the transactions consult the stream's type and
    version. *)

Record Codec (A : Type) : Type := mkCodec {
  fits : A → Prop;
  put : A → list byte;
  get : list byte → option (A * list byte)
}.

Arguments fits {A} _ _.
Arguments put {A} _ _.
Arguments get {A} _ _.

Definition lawful {A : Type} (c : Codec A) : Prop :=
  ∀ a rest, fits c a → get c (put c a ++ rest) = Some (a, rest).

Class Serializers `{Ext : External} : Type := {
  SER_GETHASH : Z;
  ser_int : Codec Z;
  ser_int32 : Codec Z;
  ser_uint32 : Codec Z;
  ser_bool : Codec bool;
  ser_uint256 : Codec uint256;
  ser_vchar : Codec (list byte);
  ser_outpoint : Codec COutPoint;
  ser_vuint256 : Codec (list uint256);
  ser_vtx : Z → Z → Codec (list CTransaction)
}.

Class SerializersLawful `{Ser : Serializers} : Prop := {
  ser_int_lawful : lawful ser_int;
  ser_int32_lawful : lawful ser_int32;
  ser_uint32_lawful : lawful ser_uint32;
  ser_bool_lawful : lawful ser_bool;
  ser_uint256_lawful : lawful ser_uint256;
  ser_vchar_lawful : lawful ser_vchar;
  ser_outpoint_lawful : lawful ser_outpoint;
  ser_vuint256_lawful : lawful ser_vuint256;
  ser_vtx_lawful : ∀ ty ver, lawful (ser_vtx ty ver)
}.

(** Modelled from the spec: the stream classes of serialize.h and
    streams.h are absent.  A stream has its serialization context (the
    type flags, among them "hash computation"), its version, and the
    bytes it holds.  Writing appends; reading takes from the front. *)
Record Stream : Type := mkStream {
  GetType : Z;
  GetVersion : Z;
  bytes : list byte
}.

Definition stream_write (s : Stream) (out : list byte) : Stream :=
  {| GetType := GetType s; GetVersion := GetVersion s;
     bytes := bytes s ++ out |}.

Definition stream_rest (s : Stream) (rest : list byte) : Stream :=
  {| GetType := GetType s; GetVersion := GetVersion s; bytes := rest |}.

Inductive Operation : Type := CSerActionSerialize | CSerActionUnserialize.

(** Modelled from the spec: the READWRITE macro of serialize.h is
    absent.  One path serves both directions: when encoding the field
    of the object is written, when decoding the incoming bytes overwrite
    it. *)
Definition READWRITE {T A : Type} (c : Codec A) (ser_action : Operation)
    (field : T → A) (store : A → T → T) (st : T * Stream) : res (T * Stream) :=
  match ser_action with
  | CSerActionSerialize =>
      Ok (st.1, stream_write st.2 (put c (field st.1)))
  | CSerActionUnserialize =>
      match get c (bytes st.2) with
      | Some (a, rest) => Ok (store a st.1, stream_rest st.2 rest)
      | None => Fault IoFailure
      end
  end.

Section Serialization.
Context `{Ser : Serializers}.

Definition set_nVersion (v : Z) (h : CBlockHeader) : CBlockHeader :=
  mkHeader v (hashPrevBlock h) (hashMerkleRoot h) (nTime h) (nBits h)
    (nNonce h) (hashStateRoot h) (vchBlockSig h) (fStake h)
    (prevoutStake h) (nStakeTime h).

Definition set_hashPrevBlock (v : uint256) (h : CBlockHeader) : CBlockHeader :=
  mkHeader (nVersion h) v (hashMerkleRoot h) (nTime h) (nBits h)
    (nNonce h) (hashStateRoot h) (vchBlockSig h) (fStake h)
    (prevoutStake h) (nStakeTime h).

Definition set_hashMerkleRoot (v : uint256) (h : CBlockHeader) : CBlockHeader :=
  mkHeader (nVersion h) (hashPrevBlock h) v (nTime h) (nBits h)
    (nNonce h) (hashStateRoot h) (vchBlockSig h) (fStake h)
    (prevoutStake h) (nStakeTime h).

Definition set_nTime (v : Z) (h : CBlockHeader) : CBlockHeader :=
  mkHeader (nVersion h) (hashPrevBlock h) (hashMerkleRoot h) v (nBits h)
    (nNonce h) (hashStateRoot h) (vchBlockSig h) (fStake h)
    (prevoutStake h) (nStakeTime h).

Definition set_nBits (v : Z) (h : CBlockHeader) : CBlockHeader :=
  mkHeader (nVersion h) (hashPrevBlock h) (hashMerkleRoot h) (nTime h) v
    (nNonce h) (hashStateRoot h) (vchBlockSig h) (fStake h)
    (prevoutStake h) (nStakeTime h).

Definition set_nNonce (v : Z) (h : CBlockHeader) : CBlockHeader :=
  mkHeader (nVersion h) (hashPrevBlock h) (hashMerkleRoot h) (nTime h)
    (nBits h) v (hashStateRoot h) (vchBlockSig h) (fStake h)
    (prevoutStake h) (nStakeTime h).

Definition set_hashStateRoot (v : uint256) (h : CBlockHeader) : CBlockHeader :=
  mkHeader (nVersion h) (hashPrevBlock h) (hashMerkleRoot h) (nTime h)
    (nBits h) (nNonce h) v (vchBlockSig h) (fStake h)
    (prevoutStake h) (nStakeTime h).

Definition set_vchBlockSig (v : list byte) (h : CBlockHeader) : CBlockHeader :=
  mkHeader (nVersion h) (hashPrevBlock h) (hashMerkleRoot h) (nTime h)
    (nBits h) (nNonce h) (hashStateRoot h) v (fStake h)
    (prevoutStake h) (nStakeTime h).

Definition set_fStake (v : bool) (h : CBlockHeader) : CBlockHeader :=
  mkHeader (nVersion h) (hashPrevBlock h) (hashMerkleRoot h) (nTime h)
    (nBits h) (nNonce h) (hashStateRoot h) (vchBlockSig h) v
    (prevoutStake h) (nStakeTime h).

Definition set_prevoutStake (v : COutPoint) (h : CBlockHeader) : CBlockHeader :=
  mkHeader (nVersion h) (hashPrevBlock h) (hashMerkleRoot h) (nTime h)
    (nBits h) (nNonce h) (hashStateRoot h) (vchBlockSig h) (fStake h)
    v (nStakeTime h).

Definition set_nStakeTime (v : Z) (h : CBlockHeader) : CBlockHeader :=
  mkHeader (nVersion h) (hashPrevBlock h) (hashMerkleRoot h) (nTime h)
    (nBits h) (nNonce h) (hashStateRoot h) (vchBlockSig h) (fStake h)
    (prevoutStake h) v.

(** [CBlockHeader::SerializationOp].  [this] is the object the member
    runs on, of whatever dynamic type; the member touches its base
    sub-object only, whose final value is returned with the stream. *)
Definition CBlockHeader_SerializationOp (ser_action : Operation)
    (this : Object) (s : Stream) : res (CBlockHeader * Stream) :=
  st ← READWRITE ser_int32 ser_action nVersion set_nVersion (base this, s);
  st ← READWRITE ser_uint256 ser_action hashPrevBlock set_hashPrevBlock st;
  st ← READWRITE ser_uint256 ser_action hashMerkleRoot set_hashMerkleRoot st;
  st ← READWRITE ser_uint32 ser_action nTime set_nTime st;
  st ← READWRITE ser_uint32 ser_action nBits set_nBits st;
  st ← READWRITE ser_uint32 ser_action nNonce set_nNonce st;
  st ← READWRITE ser_uint256 ser_action hashStateRoot set_hashStateRoot st;
  st ← READWRITE ser_vchar ser_action vchBlockSig set_vchBlockSig st;
  f ← IsProofOfStake (with_base st.1 this);
  let h := set_fStake f st.1 in
  p ← PrevoutStake (with_base h this);
  let h := set_prevoutStake p h in
  t ← StakeTime (with_base h this);
  let h := set_nStakeTime t h in
  st ← READWRITE ser_bool ser_action fStake set_fStake (h, st.2);
  st ← READWRITE ser_outpoint ser_action prevoutStake set_prevoutStake st;
  READWRITE ser_uint32 ser_action nStakeTime set_nStakeTime st.

(** Modelled from the spec: the ADD_SERIALIZE_METHODS macro of
    serialize.h is absent.  [Serialize] and [Unserialize] both run
    [SerializationOp] on the object, so that encoding refreshes the
    stored stake fields; the object left behind is returned with the
    stream. *)
Definition CBlockHeader_Serialize (this : Object) (s : Stream)
  : res (Object * Stream) :=
  st ← CBlockHeader_SerializationOp CSerActionSerialize this s;
  Ok (with_base st.1 this, st.2).

Definition CBlockHeader_Unserialize (this : Object) (s : Stream)
  : res (Object * Stream) :=
  st ← CBlockHeader_SerializationOp CSerActionUnserialize this s;
  Ok (with_base st.1 this, st.2).

Definition set_header (h : CBlockHeader) (b : CBlock) : CBlock :=
  mkBlock h (vtx b) (fChecked b).

Definition set_vtx (v : list CTransaction) (b : CBlock) : CBlock :=
  mkBlock (header b) v (fChecked b).

(** [CBlock::SerializationOp]: the first READWRITE, of this block cast
    to its base class, runs the header's member on this block; the
    transactions follow. *)
Definition CBlock_SerializationOp (ser_action : Operation)
    (this : CBlock) (s : Stream) : res (CBlock * Stream) :=
  st ← CBlockHeader_SerializationOp ser_action (ObjBlock this) s;
  READWRITE (ser_vtx (GetType st.2) (GetVersion st.2)) ser_action
    vtx set_vtx (set_header st.1 this, st.2).

Definition CBlock_Serialize (this : CBlock) (s : Stream)
  : res (CBlock * Stream) :=
  CBlock_SerializationOp CSerActionSerialize this s.

Definition CBlock_Unserialize (this : CBlock) (s : Stream)
  : res (CBlock * Stream) :=
  CBlock_SerializationOp CSerActionUnserialize this s.

Definition set_vHave (v : list uint256) (_ : CBlockLocator) : CBlockLocator :=
  mkLocator v.

(** [CBlockLocator::SerializationOp].  The local [nVersion] is written,
    or read and dropped, unless the stream's type has [SER_GETHASH]. *)
Definition CBlockLocator_SerializationOp (ser_action : Operation)
    (this : CBlockLocator) (s : Stream) : res (CBlockLocator * Stream) :=
  let nVersion := GetVersion s in
  st ← (if Z.land (GetType s) SER_GETHASH =? 0
        then READWRITE ser_int ser_action (λ v : Z, v) (λ v _, v) (nVersion, s)
        else Ok (nVersion, s));
  READWRITE ser_vuint256 ser_action vHave set_vHave (this, st.2).

Definition CBlockLocator_Serialize (this : CBlockLocator) (s : Stream)
  : res (CBlockLocator * Stream) :=
  CBlockLocator_SerializationOp CSerActionSerialize this s.

Definition CBlockLocator_Unserialize (this : CBlockLocator) (s : Stream)
  : res (CBlockLocator * Stream) :=
  CBlockLocator_SerializationOp CSerActionUnserialize this s.

(** *** The wire image the specification describes

    The canonical order of the specification's external interfaces:
    version, previous block hash, merkle root, time, bits, nonce, state
    root, block signature, stake flag, stake outpoint, stake time; a
    block is its header followed by its transactions.  These are what
    the members above are compared with. *)

Definition wire_header (h : CBlockHeader) : list byte :=
  put ser_int32 (nVersion h) ++
  put ser_uint256 (hashPrevBlock h) ++
  put ser_uint256 (hashMerkleRoot h) ++
  put ser_uint32 (nTime h) ++
  put ser_uint32 (nBits h) ++
  put ser_uint32 (nNonce h) ++
  put ser_uint256 (hashStateRoot h) ++
  put ser_vchar (vchBlockSig h) ++
  put ser_bool (fStake h) ++
  put ser_outpoint (prevoutStake h) ++
  put ser_uint32 (nStakeTime h).

Definition wire_block (ty ver : Z) (h : CBlockHeader)
    (v : list CTransaction) : list byte :=
  wire_header h ++ put (ser_vtx ty ver) v.

Definition wire_locator (ty ver : Z) (x : CBlockLocator) : list byte :=
  (if Z.land ty SER_GETHASH =? 0 then put ser_int ver else []) ++
  put ser_vuint256 (vHave x).

(** Every field of the header has a wire form. *)
Definition fits_header (h : CBlockHeader) : Prop :=
  fits ser_int32 (nVersion h) ∧
  fits ser_uint256 (hashPrevBlock h) ∧
  fits ser_uint256 (hashMerkleRoot h) ∧
  fits ser_uint32 (nTime h) ∧
  fits ser_uint32 (nBits h) ∧
  fits ser_uint32 (nNonce h) ∧
  fits ser_uint256 (hashStateRoot h) ∧
  fits ser_vchar (vchBlockSig h) ∧
  fits ser_bool (fStake h) ∧
  fits ser_outpoint (prevoutStake h) ∧
  fits ser_uint32 (nStakeTime h).

(** The header with its three stake fields replaced. *)
Definition materialize (f : bool) (p : COutPoint) (t : Z)
    (h : CBlockHeader) : CBlockHeader :=
  {| nVersion := nVersion h;
     hashPrevBlock := hashPrevBlock h;
     hashMerkleRoot := hashMerkleRoot h;
     nTime := nTime h;
     nBits := nBits h;
     nNonce := nNonce h;
     hashStateRoot := hashStateRoot h;
     vchBlockSig := vchBlockSig h;
     fStake := f;
     prevoutStake := p;
     nStakeTime := t |}.

End Serialization.

(** ** A concrete instance

    Small stand-ins for the transaction and for the wire forms, used to
    run the code on explicit blocks: an outpoint is a pair of a hash and
    an index, a transaction holds its inputs' outpoints, its time and
    its coinstake mark.  The widths are those of the specification's
    canonical order: 4 bytes for the 32-bit integers, 32 for a digest,
    1 for a boolean, 36 for an outpoint; integers are little-endian, a
    vector is its length in one byte (below 253) and then its
    elements. *)

Module Sample.

Definition outpoint : Type := Z * Z.

Definition tx : Type := list outpoint * Z * bool.

#[export] Instance ext : External := {|
  uint256 := Z;
  uint256_null := 0;
  COutPoint := outpoint;
  COutPoint_null := (0, 4294967295);
  CTxIn := outpoint;
  prevout := λ i : outpoint, i;
  CTransaction := tx;
  vin := λ t : tx, fst (fst t);
  tx_nTime := λ t : tx, snd (fst t);
  IsCoinStake := λ t : tx, snd t
|}.

Definition byte_of_Z (z : Z) : byte :=
  default Byte.x00 (Byte.of_N (Z.to_N (z mod 256))).

Definition Z_of_byte (b : byte) : Z := Z.of_N (Byte.to_N b).

Fixpoint le_put (n : nat) (z : Z) : list byte :=
  match n with
  | O => []
  | S n' => byte_of_Z z :: le_put n' (z / 256)
  end.

Fixpoint le_get (n : nat) (l : list byte) : option (Z * list byte) :=
  match n with
  | O => Some (0, l)
  | S n' =>
      match l with
      | [] => None
      | b :: l' =>
          match le_get n' l' with
          | Some (z, rest) => Some (Z_of_byte b + 256 * z, rest)
          | None => None
          end
      end
  end.

Definition uint_codec (n : nat) : Codec Z :=
  {| fits := λ z : Z, 0 ≤ z < 256 ^ Z.of_nat n;
     put := le_put n;
     get := le_get n |}.

Definition int32_codec : Codec Z :=
  {| fits := λ z : Z, - 2 ^ 31 ≤ z < 2 ^ 31;
     put := λ z : Z, le_put 4 (z mod 2 ^ 32);
     get := λ l : list byte,
       match le_get 4 l with
       | Some (u, rest) => Some (if u <? 2 ^ 31 then u else u - 2 ^ 32, rest)
       | None => None
       end |}.

Definition bool_codec : Codec bool :=
  {| fits := λ _ : bool, True;
     put := λ b : bool, [if b then Byte.x01 else Byte.x00];
     get := λ l : list byte,
       match l with
       | [] => None
       | b :: rest => Some (negb (Z_of_byte b =? 0), rest)
       end |}.

Definition byte_codec : Codec byte :=
  {| fits := λ _ : byte, True;
     put := λ b : byte, [b];
     get := λ l : list byte,
       match l with
       | [] => None
       | b :: rest => Some (b, rest)
       end |}.

Definition pair_codec {A B : Type} (ca : Codec A) (cb : Codec B)
  : Codec (A * B) :=
  {| fits := λ x : A * B, fits ca x.1 ∧ fits cb x.2;
     put := λ x : A * B, put ca x.1 ++ put cb x.2;
     get := λ l : list byte,
       match get ca l with
       | Some (a, l1) =>
           match get cb l1 with
           | Some (b, l2) => Some ((a, b), l2)
           | None => None
           end
       | None => None
       end |}.

Fixpoint get_n {A : Type} (c : Codec A) (n : nat) (l : list byte)
  : option (list A * list byte) :=
  match n with
  | O => Some ([], l)
  | S n' =>
      match get c l with
      | Some (a, l1) =>
          match get_n c n' l1 with
          | Some (v, l2) => Some (a :: v, l2)
          | None => None
          end
      | None => None
      end
  end.

Definition vector_codec {A : Type} (c : Codec A) : Codec (list A) :=
  {| fits := λ v : list A, (length v < 253)%nat ∧ Forall (fits c) v;
     put := λ v : list A,
       byte_of_Z (Z.of_nat (length v)) :: flat_map (put c) v;
     get := λ l : list byte,
       match l with
       | [] => None
       | b :: l' =>
           if Z_of_byte b <? 253 then get_n c (Z.to_nat (Z_of_byte b)) l'
           else None
       end |}.

Definition outpoint_codec : Codec outpoint :=
  pair_codec (uint_codec 32) (uint_codec 4).

Definition tx_codec : Codec tx :=
  pair_codec (pair_codec (vector_codec outpoint_codec) (uint_codec 4))
    bool_codec.

#[export] Instance ser : Serializers := {|
  SER_GETHASH := 4;
  ser_int := int32_codec;
  ser_int32 := int32_codec;
  ser_uint32 := uint_codec 4;
  ser_bool := bool_codec;
  ser_uint256 := uint_codec 32;
  ser_vchar := vector_codec byte_codec;
  ser_outpoint := outpoint_codec;
  ser_vuint256 := vector_codec (uint_codec 32);
  ser_vtx := λ _ _, vector_codec tx_codec
|}.

(** A coinstake transaction spending output 0 of transaction 170, an
    ordinary transaction, and three blocks: one whose stored stake
    fields disagree with its transactions, one built from a stake header
    with no transactions, one with a single transaction. *)

Definition coinstake : tx := ([(170, 0)], 1600000000, true).

Definition coinbase : tx := ([(0, 4294967295)], 1600000000, false).

Definition pow_header : CBlockHeader :=
  {| nVersion := 1; hashPrevBlock := 7; hashMerkleRoot := 9;
     nTime := 1600000016; nBits := 486604799; nNonce := 0;
     hashStateRoot := 11; vchBlockSig := [];
     fStake := false; prevoutStake := (0, 4294967295); nStakeTime := 0 |}.

Definition pos_header : CBlockHeader :=
  {| nVersion := 1; hashPrevBlock := 7; hashMerkleRoot := 9;
     nTime := 1600000016; nBits := 486604799; nNonce := 0;
     hashStateRoot := 11; vchBlockSig := [Byte.x30; Byte.x45];
     fStake := true; prevoutStake := (170, 0); nStakeTime := 1600000000 |}.

Definition stale_block : CBlock :=
  {| header := pow_header; vtx := [coinbase; coinstake]; fChecked := true |}.

Definition pow_block : CBlock :=
  {| header := pos_header; vtx := [coinbase; coinbase]; fChecked := false |}.

Definition header_only_block : CBlock :=
  {| header := pos_header; vtx := []; fChecked := false |}.

Definition single_tx_block : CBlock :=
  {| header := pos_header; vtx := [coinbase]; fChecked := false |}.

Definition locator : CBlockLocator := {| vHave := [21; 13; 8] |}.

(** One block at address 1: a heap on which a block can only be
    assigned to itself. *)
Definition lone_block : gmap nat Object := {[ 1%nat := ObjBlock stale_block ]}.

(** A plain header at address 1 and a block at address 2. *)
Definition two_objects : gmap nat Object :=
  <[ 1%nat := ObjHeader pow_header ]> {[ 2%nat := ObjBlock stale_block ]}.

End Sample.

(** * Stake derivation *)

Section BlockFacts.
Context `{Ext : External}.

(** The three shapes of a transaction list the derivation tells apart. *)
Lemma vtx_shape (v : list CTransaction) :
  v = [] ∨ (∃ t0, v = [t0]) ∨ (∃ t0 t1 rest, v = t0 :: t1 :: rest).
Proof.
  destruct v as [|t0 [|t1 rest]]; [by left | right; left | right; right].
  - by exists t0.
  - by exists t0, t1, rest.
Qed.

Ltac block_cases b :=
  let h := fresh "h" in
  let v := fresh "v" in
  let c := fresh "c" in
  destruct b as [h v c];
  destruct (vtx_shape v) as [-> | [[t0 ->] | (t0 & t1 & rest & ->)]];
  unfold CBlock_GetProofOfStake, CBlock_PrevoutStake, CBlock_StakeTime,
    CBlock_IsProofOfStake, at_ in *;
  cbn in *.

Lemma lookup_second (v : list CTransaction) (t : CTransaction) :
  v !! 1%nat = Some t → ∃ t0 rest, v = t0 :: t :: rest.
Proof.
  destruct v as [|t0 [|t1 rest]]; cbn; intros H; try discriminate.
  injection H as ->. by exists t0, rest.
Qed.

Lemma CBlock_IsProofOfStake_empty (b : CBlock) :
  vtx b = [] → CBlock_IsProofOfStake b = Ok (fStake (header b)).
Proof. destruct b as [h v c]; cbn. by intros ->. Qed.

Lemma CBlock_IsProofOfStake_second (b : CBlock) (t : CTransaction) :
  vtx b !! 1%nat = Some t → CBlock_IsProofOfStake b = Ok (IsCoinStake t).
Proof.
  intros H. destruct (lookup_second _ _ H) as (t0 & rest & Hv).
  destruct b as [h v c]; cbn in *; subst v. reflexivity.
Qed.

Lemma CBlock_IsProofOfStake_single (b : CBlock) :
  length (vtx b) = 1%nat → CBlock_IsProofOfStake b = Ok false.
Proof. block_cases b; intros; (discriminate || reflexivity). Qed.

(** The classification itself never goes out of range. *)
Lemma CBlock_IsProofOfStake_total (b : CBlock) :
  ∃ pos, CBlock_IsProofOfStake b = Ok pos.
Proof. block_cases b; eauto. Qed.

Lemma CBlock_StakeTime_total (b : CBlock) :
  ∃ t, CBlock_StakeTime b = Ok t.
Proof. block_cases b; eauto. destruct (IsCoinStake t1); cbn; eauto. Qed.

Lemma CBlock_PrevoutStake_total (b : CBlock) :
  coinstake_has_input b → ∃ p, CBlock_PrevoutStake b = Ok p.
Proof.
  unfold coinstake_has_input. block_cases b; intros H; eauto.
  destruct (IsCoinStake t1) eqn:E; cbn; eauto.
  specialize (H t1 eq_refl E).
  destruct (vin t1); [congruence | cbn; eauto].
Qed.

Lemma CBlock_GetProofOfStake_not_stake (b : CBlock) :
  CBlock_IsProofOfStake b = Ok false →
  CBlock_GetProofOfStake b = Ok (COutPoint_null, 0).
Proof. unfold CBlock_GetProofOfStake. by intros ->. Qed.

(** C1.  With no transaction the block's classification is the stored
    [fStake]; with some, the call returns, and returns true exactly when
    there is a transaction at index 1 (more than one transaction) that
    is marked coinstake. *)
Theorem CBlock_IsProofOfStake_spec (b : CBlock) :
  (vtx b = [] → CBlock_IsProofOfStake b = Ok (fStake (header b))) ∧
  (vtx b ≠ [] →
   ∃ pos, CBlock_IsProofOfStake b = Ok pos ∧
     (pos = true ↔
      (1 < length (vtx b))%nat ∧
      ∃ t, vtx b !! 1%nat = Some t ∧ IsCoinStake t = true)).
Proof.
  split; [apply CBlock_IsProofOfStake_empty |].
  block_cases b; intros Hne; [done | |].
  - exists false. split; [done |]. split; [done |]. intros [Hlen _]. lia.
  - exists (IsCoinStake t1). split; [done |]. split.
    + intros E. split; [lia |]. by exists t1.
    + intros [_ (t & Ht & E)]. by injection Ht as ->.
Qed.

(** C2.  A block whose transaction at index 1 (so it has at least two)
    is marked coinstake is proof-of-stake; its stake outpoint is the
    read of [vin[0].prevout] on that transaction, hence the first
    input's outpoint when the transaction has one; its stake time is
    that transaction's time. *)
Theorem CBlock_coinstake_derivation (b : CBlock) (t : CTransaction) :
  vtx b !! 1%nat = Some t →
  IsCoinStake t = true →
  (2 ≤ length (vtx b))%nat ∧
  CBlock_IsProofOfStake b = Ok true ∧
  CBlock_PrevoutStake b = (i ← at_ (vin t) 0; Ok (prevout i)) ∧
  (∀ i, vin t !! 0%nat = Some i → CBlock_PrevoutStake b = Ok (prevout i)) ∧
  CBlock_StakeTime b = Ok (tx_nTime t).
Proof.
  intros H E. destruct (lookup_second _ _ H) as (t0 & rest & Hv).
  destruct b as [h v c]; cbn in *; subst v.
  unfold CBlock_PrevoutStake, CBlock_StakeTime, CBlock_IsProofOfStake, at_.
  cbn. rewrite E. cbn. repeat split; try done; try lia.
  intros i Hi. by rewrite Hi.
Qed.

(** C6.  A block whose transaction at index 1 is not marked coinstake is
    not proof-of-stake, has the null stake outpoint and stake time 0. *)
Theorem CBlock_no_coinstake_derivation (b : CBlock) (t : CTransaction) :
  vtx b !! 1%nat = Some t →
  IsCoinStake t = false →
  CBlock_IsProofOfStake b = Ok false ∧
  CBlock_PrevoutStake b = Ok COutPoint_null ∧
  CBlock_StakeTime b = Ok 0.
Proof.
  intros H E. destruct (lookup_second _ _ H) as (t0 & rest & Hv).
  destruct b as [h v c]; cbn in *; subst v.
  unfold CBlock_PrevoutStake, CBlock_StakeTime, CBlock_IsProofOfStake, at_.
  cbn. by rewrite E.
Qed.

(** C10.  With exactly one transaction the block is not proof-of-stake,
    its stake outpoint is null and its stake time 0, whatever the header
    stores; the stored values are returned for the empty list only. *)
Theorem CBlock_single_transaction (b : CBlock) :
  length (vtx b) = 1%nat →
  CBlock_IsProofOfStake b = Ok false ∧
  CBlock_PrevoutStake b = Ok COutPoint_null ∧
  CBlock_StakeTime b = Ok 0.
Proof. block_cases b; intros; (discriminate || done). Qed.

(** C3.  [GetBlockHeader] copies the eight plain fields and stores the
    results of the block's own [IsProofOfStake], [PrevoutStake] and
    [StakeTime]; it returns whenever the stake outpoint can be read. *)
Theorem CBlock_GetBlockHeader_spec (b : CBlock) (p : COutPoint) :
  CBlock_PrevoutStake b = Ok p →
  ∃ h, CBlock_GetBlockHeader b = Ok h ∧
    nVersion h = nVersion (header b) ∧
    hashPrevBlock h = hashPrevBlock (header b) ∧
    hashMerkleRoot h = hashMerkleRoot (header b) ∧
    nTime h = nTime (header b) ∧
    nBits h = nBits (header b) ∧
    nNonce h = nNonce (header b) ∧
    hashStateRoot h = hashStateRoot (header b) ∧
    vchBlockSig h = vchBlockSig (header b) ∧
    CBlock_IsProofOfStake b = Ok (fStake h) ∧
    CBlock_PrevoutStake b = Ok (prevoutStake h) ∧
    CBlock_StakeTime b = Ok (nStakeTime h).
Proof.
  intros Hp.
  destruct (CBlock_IsProofOfStake_total b) as [f Hf].
  destruct (CBlock_StakeTime_total b) as [t Ht].
  unfold CBlock_GetBlockHeader. rewrite Hf, Hp, Ht. cbn.
  eexists. split; [reflexivity |]. cbn. by repeat split.
Qed.

(** C5.  On a block without transactions whose stored [fStake] is set,
    [GetProofOfStake] takes the stake branch and indexes the empty
    transaction list. *)
Theorem CBlock_GetProofOfStake_header_only (b : CBlock) :
  vtx b = [] →
  fStake (header b) = true →
  CBlock_IsProofOfStake b = Ok true ∧
  CBlock_PrevoutStake b = Ok (prevoutStake (header b)) ∧
  CBlock_StakeTime b = Ok (nStakeTime (header b)) ∧
  CBlock_GetProofOfStake b = Fault OutOfRange.
Proof.
  destruct b as [h v c]; cbn. intros -> E.
  unfold CBlock_GetProofOfStake, CBlock_PrevoutStake, CBlock_StakeTime,
    CBlock_IsProofOfStake. cbn. by rewrite E.
Qed.

End BlockFacts.

(** * Copying *)

Section CopyFacts.
Context `{Ext : External}.

Lemma base_with_base (h : CBlockHeader) (o : Object) : base (with_base h o) = h.
Proof. by destruct o. Qed.

Lemma with_base_base (o : Object) : with_base (base o) o = o.
Proof. destruct o as [h | [h v c]]; reflexivity. Qed.

Lemma IsProofOfStake_total (o : Object) : ∃ f, IsProofOfStake o = Ok f.
Proof. destruct o; cbn; [eauto | apply CBlock_IsProofOfStake_total]. Qed.

Lemma StakeTime_total (o : Object) : ∃ t, StakeTime o = Ok t.
Proof. destruct o; cbn; [eauto | apply CBlock_StakeTime_total]. Qed.

Lemma header_copy_spec (o : Object) (f : bool) (p : COutPoint) (t : Z) :
  IsProofOfStake o = Ok f → PrevoutStake o = Ok p → StakeTime o = Ok t →
  header_copy o =
    Ok {| nVersion := nVersion (base o);
          hashPrevBlock := hashPrevBlock (base o);
          hashMerkleRoot := hashMerkleRoot (base o);
          nTime := nTime (base o);
          nBits := nBits (base o);
          nNonce := nNonce (base o);
          hashStateRoot := hashStateRoot (base o);
          vchBlockSig := vchBlockSig (base o);
          fStake := f;
          prevoutStake := p;
          nStakeTime := t |}.
Proof. unfold header_copy. by intros -> -> ->. Qed.

(** The copy for a destination of any dynamic type.  Between different
    objects, when the source's stake outpoint can be read, the
    destination's stored [fStake], [prevoutStake] and [nStakeTime]
    become the results of the source's virtual members and the source
    is as it was; on one and the same object the guard skips the copy
    and the heap is unchanged. *)
Theorem CBlockHeader_assign_spec (σ : gmap nat Object) (this other : nat)
    (d o : Object) (p : COutPoint) :
  σ !! this = Some d →
  σ !! other = Some o →
  PrevoutStake o = Ok p →
  (this ≠ other →
   ∃ h, CBlockHeader_assign this other σ = Ok (<[this := with_base h d]> σ) ∧
     (<[this := with_base h d]> σ) !! this = Some (with_base h d) ∧
     (<[this := with_base h d]> σ) !! other = Some o ∧
     base (with_base h d) = h ∧
     IsProofOfStake o = Ok (fStake h) ∧
     PrevoutStake o = Ok (prevoutStake h) ∧
     StakeTime o = Ok (nStakeTime h)) ∧
  (this = other → CBlockHeader_assign this other σ = Ok σ).
Proof.
  intros Hd Ho Hp. unfold CBlockHeader_assign, deref. rewrite Hd, Ho. cbn.
  split; intros Hne.
  - destruct (IsProofOfStake_total o) as [f Hf].
    destruct (StakeTime_total o) as [t Ht].
    rewrite decide_True by done.
    rewrite (header_copy_spec o f p t Hf Hp Ht). cbn.
    eexists. split; [reflexivity |].
    rewrite lookup_insert_eq, lookup_insert_ne by done.
    rewrite base_with_base. cbn. by repeat split.
  - rewrite decide_False; [done | by intros []].
Qed.

Lemma header_copy_inv (o : Object) (h : CBlockHeader) :
  header_copy o = Ok h →
  IsProofOfStake o = Ok (fStake h) ∧
  PrevoutStake o = Ok (prevoutStake h) ∧
  StakeTime o = Ok (nStakeTime h).
Proof.
  unfold header_copy.
  destruct (IsProofOfStake o) as [f |]; cbn; [| done].
  destruct (PrevoutStake o) as [p |]; cbn; [| done].
  destruct (StakeTime o) as [t |]; cbn; [| done].
  by intros [= <-].
Qed.

(** C4.  The destination being a header and the source a header or a
    block, wherever the two references point: once [d = s] has run, the
    destination's stored [fStake], [prevoutStake] and [nStakeTime] are
    the results of the source's virtual [IsProofOfStake], [PrevoutStake]
    and [StakeTime], and the source is as it was, so that a block
    assigned through a header-typed reference leaves its
    transaction-derived classification in the destination.  The
    assignment runs to its end as soon as the source's stake outpoint
    can be read. *)
Theorem CBlockHeader_assign_to_header (σ : gmap nat Object)
    (this other : nat) (hd : CBlockHeader) (o : Object) :
  σ !! this = Some (ObjHeader hd) →
  σ !! other = Some o →
  (∀ σ', CBlockHeader_assign this other σ = Ok σ' →
     ∃ h', σ' !! this = Some (ObjHeader h') ∧
       σ' !! other = Some o ∧
       IsProofOfStake o = Ok (fStake h') ∧
       PrevoutStake o = Ok (prevoutStake h') ∧
       StakeTime o = Ok (nStakeTime h')) ∧
  ((∃ p, PrevoutStake o = Ok p) →
   ∃ σ', CBlockHeader_assign this other σ = Ok σ').
Proof.
  intros Hd Ho. unfold CBlockHeader_assign, deref. rewrite Hd, Ho.
  cbn [mbind res_bind].
  destruct (decide (this = other)) as [E | Hne].
  - rewrite decide_False by (intros H; by apply H).
    subst other. rewrite Hd in Ho. injection Ho as <-.
    split; [| by eexists].
    intros σ' [= <-]. exists hd. by repeat split.
  - rewrite decide_True by done. split.
    + intros σ' Ha.
      destruct (header_copy o) as [h |] eqn:Hc; cbn in Ha; [| done].
      injection Ha as <-.
      destruct (header_copy_inv o h Hc) as (Hf & Hp & Ht).
      exists h. rewrite lookup_insert_eq, lookup_insert_ne by done.
      by repeat split.
    + intros [p Hp].
      destruct (IsProofOfStake_total o) as [f Hf].
      destruct (StakeTime_total o) as [t Ht].
      rewrite (header_copy_spec o f p t Hf Hp Ht). cbn. by eexists.
Qed.

End CopyFacts.

(** * Serialization *)

Section WriteFacts.
Context `{Ser : Serializers}.

Lemma stream_write_write (s : Stream) (a b : list byte) :
  stream_write (stream_write s a) b = stream_write s (a ++ b).
Proof. unfold stream_write; cbn. by rewrite app_assoc. Qed.

(** A virtual member of a block reads its own stored field of the base,
    and only when there is no transaction: changing the other fields of
    the base does not change its result. *)
Lemma IsProofOfStake_with_base (o : Object) (h : CBlockHeader) :
  fStake h = fStake (base o) →
  IsProofOfStake (with_base h o) = IsProofOfStake o.
Proof.
  destruct o as [h0 | [h0 v c]]; cbn.
  - unfold CBlockHeader_IsProofOfStake. by intros ->.
  - unfold CBlock_IsProofOfStake; cbn.
    destruct v as [|? ?]; cbn; [by intros -> | done].
Qed.

Lemma PrevoutStake_with_base (o : Object) (h : CBlockHeader) :
  prevoutStake h = prevoutStake (base o) →
  PrevoutStake (with_base h o) = PrevoutStake o.
Proof.
  destruct o as [h0 | [h0 v c]]; cbn.
  - unfold CBlockHeader_PrevoutStake. by intros ->.
  - unfold CBlock_PrevoutStake, CBlock_IsProofOfStake; cbn.
    destruct v as [|? ?]; cbn; [by intros -> | done].
Qed.

Lemma StakeTime_with_base (o : Object) (h : CBlockHeader) :
  nStakeTime h = nStakeTime (base o) →
  StakeTime (with_base h o) = StakeTime o.
Proof.
  destruct o as [h0 | [h0 v c]]; cbn.
  - unfold CBlockHeader_StakeTime. by intros ->.
  - unfold CBlock_StakeTime, CBlock_IsProofOfStake; cbn.
    destruct v as [|? ?]; cbn; [by intros -> | done].
Qed.

Lemma CBlockHeader_SerializationOp_write (o : Object) (s : Stream)
    (f : bool) (p : COutPoint) (t : Z) :
  IsProofOfStake o = Ok f → PrevoutStake o = Ok p → StakeTime o = Ok t →
  CBlockHeader_SerializationOp CSerActionSerialize o s =
    Ok (materialize f p t (base o),
        stream_write s (wire_header (materialize f p t (base o)))).
Proof.
  intros Hf Hp Ht. unfold CBlockHeader_SerializationOp. cbn.
  rewrite with_base_base, Hf. cbn.
  rewrite PrevoutStake_with_base, Hp by reflexivity. cbn.
  rewrite StakeTime_with_base, Ht by reflexivity. cbn.
  rewrite !stream_write_write. reflexivity.
Qed.

Lemma CBlock_Serialize_write (b : CBlock) (s : Stream)
    (f : bool) (p : COutPoint) (t : Z) :
  CBlock_IsProofOfStake b = Ok f → CBlock_PrevoutStake b = Ok p →
  CBlock_StakeTime b = Ok t →
  CBlock_Serialize b s =
    Ok (set_header (materialize f p t (header b)) b,
        stream_write s
          (wire_block (GetType s) (GetVersion s)
             (materialize f p t (header b)) (vtx b))).
Proof.
  intros Hf Hp Ht. unfold CBlock_Serialize, CBlock_SerializationOp.
  rewrite (CBlockHeader_SerializationOp_write (ObjBlock b) s f p t)
    by done.
  cbn. by rewrite stream_write_write.
Qed.

(** C8.  Serializing a header or a block through the header's member
    writes, after the eight plain fields, the results of the virtual
    [IsProofOfStake], [PrevoutStake] and [StakeTime] of the object as it
    is at that moment, and leaves these results in the object's stored
    fields; the stored values it had do not reach the stream. A block
    serialized as a block does the same and appends its transactions. *)
Theorem Serialize_refreshes_stake_fields (o : Object) (s : Stream)
    (f : bool) (p : COutPoint) (t : Z) :
  IsProofOfStake o = Ok f →
  PrevoutStake o = Ok p →
  StakeTime o = Ok t →
  CBlockHeader_Serialize o s =
    Ok (with_base (materialize f p t (base o)) o,
        stream_write s
          (put ser_int32 (nVersion (base o)) ++
           put ser_uint256 (hashPrevBlock (base o)) ++
           put ser_uint256 (hashMerkleRoot (base o)) ++
           put ser_uint32 (nTime (base o)) ++
           put ser_uint32 (nBits (base o)) ++
           put ser_uint32 (nNonce (base o)) ++
           put ser_uint256 (hashStateRoot (base o)) ++
           put ser_vchar (vchBlockSig (base o)) ++
           put ser_bool f ++ put ser_outpoint p ++ put ser_uint32 t)) ∧
  (∀ b, o = ObjBlock b →
     CBlock_Serialize b s =
       Ok (set_header (materialize f p t (header b)) b,
           stream_write s
             (wire_header (materialize f p t (header b)) ++
              put (ser_vtx (GetType s) (GetVersion s)) (vtx b)))).
Proof.
  intros Hf Hp Ht. split.
  - unfold CBlockHeader_Serialize.
    by rewrite (CBlockHeader_SerializationOp_write o s f p t).
  - intros b ->. by rewrite (CBlock_Serialize_write b s f p t).
Qed.

(** C9.  Unless the stream's type has [SER_GETHASH], a locator is
    written as the stream's version followed by the hash vector; with
    [SER_GETHASH] only the hash vector is written.  The first encoding
    is the second with the version in front. *)
Theorem CBlockLocator_Serialize_spec (x : CBlockLocator)
    (ty_net ty_hash ver : Z) (pre : list byte) :
  Z.land ty_net SER_GETHASH = 0 →
  Z.land ty_hash SER_GETHASH ≠ 0 →
  CBlockLocator_Serialize x (mkStream ty_net ver pre) =
    Ok (x, mkStream ty_net ver
             (pre ++ put ser_int ver ++ put ser_vuint256 (vHave x))) ∧
  CBlockLocator_Serialize x (mkStream ty_hash ver pre) =
    Ok (x, mkStream ty_hash ver (pre ++ put ser_vuint256 (vHave x))).
Proof.
  intros Hnet Hhash.
  unfold CBlockLocator_Serialize, CBlockLocator_SerializationOp. cbn.
  rewrite Hnet. cbn.
  destruct (Z.eqb_spec (Z.land ty_hash SER_GETHASH) 0) as [E | _]; [done |].
  cbn. unfold stream_write; cbn. by rewrite <- app_assoc.
Qed.

End WriteFacts.

Section ReadFacts.
Context `{Ser : Serializers} {Law : SerializersLawful}.

Lemma READWRITE_read {T A : Type} (c : Codec A) (field : T → A)
    (store : A → T → T) (x : T) (ty ver : Z) (a : A) (rest : list byte) :
  lawful c → fits c a →
  READWRITE c CSerActionUnserialize field store
    (x, mkStream ty ver (put c a ++ rest)) =
  Ok (store a x, mkStream ty ver rest).
Proof.
  intros Hc Ha. unfold READWRITE; cbn. by rewrite (Hc a rest Ha).
Qed.

Lemma PrevoutStake_with_base_total (o : Object) (h : CBlockHeader)
    (q : COutPoint) :
  PrevoutStake o = Ok q → ∃ p, PrevoutStake (with_base h o) = Ok p.
Proof.
  destruct o as [h0 | [h0 v c]]; cbn; [eauto |].
  unfold CBlock_PrevoutStake, CBlock_IsProofOfStake; cbn.
  destruct v as [|? ?]; cbn; eauto.
Qed.

(** Reading a header into any object whose stake outpoint can be read:
    the three results stored in between are overwritten by the three
    values read. *)
Lemma CBlockHeader_SerializationOp_read (target : Object) (q : COutPoint)
    (h : CBlockHeader) (ty ver : Z) (rest : list byte) :
  PrevoutStake target = Ok q →
  fits_header h →
  CBlockHeader_SerializationOp CSerActionUnserialize target
    (mkStream ty ver (wire_header h ++ rest)) =
  Ok (h, mkStream ty ver rest).
Proof.
  intros Hq (F1 & F2 & F3 & F4 & F5 & F6 & F7 & F8 & F9 & F10 & F11).
  destruct Law.
  unfold CBlockHeader_SerializationOp, wire_header.
  rewrite <- !app_assoc.
  do 8 (rewrite READWRITE_read by assumption; cbn [mbind res_bind fst snd]).
  match goal with
  | |- context [IsProofOfStake ?o] =>
      destruct (IsProofOfStake_total o) as [f0 ->]
  end.
  cbn [mbind res_bind fst snd].
  match goal with
  | |- context [PrevoutStake (with_base ?h0 target)] =>
      destruct (PrevoutStake_with_base_total target h0 q Hq) as [p0 ->]
  end.
  cbn [mbind res_bind fst snd].
  match goal with
  | |- context [StakeTime ?o] => destruct (StakeTime_total o) as [t0 ->]
  end.
  cbn [mbind res_bind fst snd].
  do 2 (rewrite READWRITE_read by assumption; cbn [mbind res_bind fst snd]).
  rewrite <- (app_nil_r (put ser_uint32 (nStakeTime h))) at 1.
  rewrite <- app_assoc. cbn [app].
  rewrite READWRITE_read by assumption.
  by destruct h.
Qed.

Lemma CBlock_GetBlockHeader_materialize (b : CBlock) (h : CBlockHeader) :
  CBlock_GetBlockHeader b = Ok h →
  ∃ f p t, CBlock_IsProofOfStake b = Ok f ∧ CBlock_PrevoutStake b = Ok p ∧
    CBlock_StakeTime b = Ok t ∧ h = materialize f p t (header b).
Proof.
  unfold CBlock_GetBlockHeader.
  destruct (CBlock_IsProofOfStake b) as [f |]; cbn; [| done].
  destruct (CBlock_PrevoutStake b) as [p |]; cbn; [| done].
  destruct (CBlock_StakeTime b) as [t |]; cbn; [| done].
  intros [= <-]. by exists f, p, t.
Qed.

(** C7.  What is decoded from the encoding of a header, a block or a
    locator into a new object is the value encoded, field for field.
    A header is written as it is stored.  A block is written with its
    stake fields recomputed and stored, the header [GetBlockHeader]
    gives, and it is this materialized block that comes back, with its
    transactions; [fChecked] is memory-only and is the new object's.
    A locator comes back in either context, the version in front being
    read and dropped where it was written. *)
Theorem decode_encode :
  (∀ (x : CBlockHeader) (ty ver : Z) (pre rest : list byte),
     fits_header x →
     CBlockHeader_Serialize (ObjHeader x) (mkStream ty ver pre) =
       Ok (ObjHeader x, mkStream ty ver (pre ++ wire_header x)) ∧
     CBlockHeader_Unserialize (ObjHeader CBlockHeader_new)
       (mkStream ty ver (wire_header x ++ rest)) =
       Ok (ObjHeader x, mkStream ty ver rest)) ∧
  (∀ (x : CBlock) (h : CBlockHeader) (ty ver : Z) (pre rest : list byte),
     CBlock_GetBlockHeader x = Ok h →
     fits_header h →
     fits (ser_vtx ty ver) (vtx x) →
     CBlock_Serialize x (mkStream ty ver pre) =
       Ok ({| header := h; vtx := vtx x; fChecked := fChecked x |},
           mkStream ty ver (pre ++ wire_block ty ver h (vtx x))) ∧
     CBlock_Unserialize CBlock_new
       (mkStream ty ver (wire_block ty ver h (vtx x) ++ rest)) =
       Ok ({| header := h; vtx := vtx x; fChecked := false |},
           mkStream ty ver rest)) ∧
  (∀ (x : CBlockLocator) (ty ver : Z) (pre rest : list byte),
     (Z.land ty SER_GETHASH = 0 → fits ser_int ver) →
     fits ser_vuint256 (vHave x) →
     CBlockLocator_Serialize x (mkStream ty ver pre) =
       Ok (x, mkStream ty ver (pre ++ wire_locator ty ver x)) ∧
     CBlockLocator_Unserialize CBlockLocator_new
       (mkStream ty ver (wire_locator ty ver x ++ rest)) =
       Ok (x, mkStream ty ver rest)).
Proof.
  split; [| split].
  - intros x ty ver pre rest Hx. split.
    + unfold CBlockHeader_Serialize.
      rewrite (CBlockHeader_SerializationOp_write (ObjHeader x) _
        (fStake x) (prevoutStake x) (nStakeTime x)) by reflexivity.
      by destruct x.
    + unfold CBlockHeader_Unserialize.
      by rewrite (CBlockHeader_SerializationOp_read _ COutPoint_null x).
  - intros x h ty ver pre rest Hh Fh Fv.
    destruct (CBlock_GetBlockHeader_materialize x h Hh)
      as (f & p & t & Hf & Hp & Ht & ->).
    split.
    + by rewrite (CBlock_Serialize_write x _ f p t).
    + unfold CBlock_Unserialize, CBlock_SerializationOp, wire_block.
      rewrite <- app_assoc.
      rewrite (CBlockHeader_SerializationOp_read _ COutPoint_null)
        by done.
      cbn [mbind res_bind fst snd GetType GetVersion].
      rewrite READWRITE_read; [done | apply ser_vtx_lawful | done].
  - intros [v] ty ver pre rest Fver Fv. cbn in Fv.
    unfold CBlockLocator_Serialize, CBlockLocator_Unserialize,
      CBlockLocator_SerializationOp, wire_locator.
    cbn [GetType GetVersion vHave].
    destruct (Z.eqb_spec (Z.land ty SER_GETHASH) 0) as [E | _].
    + split.
      * cbn. unfold stream_write; cbn. by rewrite <- app_assoc.
      * rewrite <- app_assoc.
        rewrite READWRITE_read; [| apply ser_int_lawful | by apply Fver].
        cbn [mbind res_bind fst snd].
        rewrite READWRITE_read; [done | apply ser_vuint256_lawful | done].
    + split; [done |].
      cbn [mbind res_bind fst snd app].
      rewrite READWRITE_read; [done | apply ser_vuint256_lawful | done].
Qed.

End ReadFacts.

(** * The concrete instance is lawful *)

Section SampleFacts.
Import Sample.

Lemma Z_of_byte_of_Z (z : Z) : Z_of_byte (byte_of_Z z) = z mod 256.
Proof.
  unfold Z_of_byte, byte_of_Z.
  assert (0 ≤ z mod 256 < 256) as Hr by (apply Z.mod_pos_bound; lia).
  destruct (Byte.of_N (Z.to_N (z mod 256))) as [b |] eqn:E; cbn.
  - apply Byte.to_of_N in E. rewrite E. lia.
  - apply Byte.of_N_None_iff in E. lia.
Qed.

Lemma le_get_put (n : nat) :
  ∀ z rest, 0 ≤ z < 256 ^ Z.of_nat n →
    le_get n (le_put n z ++ rest) = Some (z, rest).
Proof.
  induction n as [|n IH]; intros z rest Hz.
  - cbn in *. f_equal. f_equal. lia.
  - rewrite Nat2Z.inj_succ, Z.pow_succ_r in Hz by lia.
    cbn [le_put le_get app].
    rewrite IH.
    + rewrite Z_of_byte_of_Z. f_equal. f_equal.
      pose proof (Z.div_mod z 256). lia.
    + split; [apply Z.div_pos; lia |].
      apply Z.div_lt_upper_bound; lia.
Qed.

Lemma uint_codec_lawful (n : nat) : lawful (uint_codec n).
Proof. intros z rest Hz. by apply le_get_put. Qed.

Lemma int32_codec_lawful : lawful int32_codec.
Proof.
  intros z rest Hz. unfold int32_codec in *. cbn [fits put get] in *.
  change (2 ^ 31) with 2147483648 in *.
  change (2 ^ 32) with 4294967296 in *.
  rewrite le_get_put.
  - f_equal. f_equal.
    destruct (Z.ltb_spec (z mod 4294967296) 2147483648);
      pose proof (Z.div_mod z 4294967296);
      pose proof (Z.mod_pos_bound z 4294967296); lia.
  - change (256 ^ Z.of_nat 4) with 4294967296.
    apply Z.mod_pos_bound; lia.
Qed.

Lemma bool_codec_lawful : lawful bool_codec.
Proof. by intros [] rest _. Qed.

Lemma byte_codec_lawful : lawful byte_codec.
Proof. by intros b rest _. Qed.

Lemma pair_codec_lawful {A B : Type} (ca : Codec A) (cb : Codec B) :
  lawful ca → lawful cb → lawful (pair_codec ca cb).
Proof.
  intros Ha Hb [a b] rest [Fa Fb]. cbn in *.
  by rewrite <- app_assoc, (Ha a _ Fa), (Hb b _ Fb).
Qed.

Lemma get_n_flat_map {A : Type} (c : Codec A) (v : list A)
    (rest : list byte) :
  lawful c → Forall (fits c) v →
  get_n c (length v) (flat_map (put c) v ++ rest) = Some (v, rest).
Proof.
  intros Hc Hv. induction Hv as [|a v Fa _ IH]; [done |].
  cbn. by rewrite <- app_assoc, (Hc a _ Fa), IH.
Qed.

Lemma vector_codec_lawful {A : Type} (c : Codec A) :
  lawful c → lawful (vector_codec c).
Proof.
  intros Hc v rest [Hlen Hv]. cbn.
  rewrite Z_of_byte_of_Z, Z.mod_small by lia.
  destruct (Z.ltb_spec (Z.of_nat (length v)) 253); [| lia].
  rewrite Nat2Z.id. by apply get_n_flat_map.
Qed.

Lemma outpoint_codec_lawful : lawful outpoint_codec.
Proof. apply pair_codec_lawful; apply uint_codec_lawful. Qed.

Lemma tx_codec_lawful : lawful tx_codec.
Proof.
  repeat apply pair_codec_lawful.
  - apply vector_codec_lawful, outpoint_codec_lawful.
  - apply uint_codec_lawful.
  - apply bool_codec_lawful.
Qed.

Lemma ser_lawful : SerializersLawful (Ser := ser).
Proof.
  split; cbn.
  - apply int32_codec_lawful.
  - apply int32_codec_lawful.
  - apply uint_codec_lawful.
  - apply bool_codec_lawful.
  - apply uint_codec_lawful.
  - apply vector_codec_lawful, byte_codec_lawful.
  - apply outpoint_codec_lawful.
  - apply vector_codec_lawful, uint_codec_lawful.
  - intros _ _. apply vector_codec_lawful, tx_codec_lawful.
Qed.

End SampleFacts.

(** * The properties on explicit blocks *)

Section Instances.
Import Sample.

Lemma CBlock_IsProofOfStake_spec_witness :
  (vtx header_only_block = [] ∧
   CBlock_IsProofOfStake header_only_block = Ok true) ∧
  (vtx stale_block ≠ [] ∧
   ∃ pos, CBlock_IsProofOfStake stale_block = Ok pos ∧
     (pos = true ↔
      (1 < length (vtx stale_block))%nat ∧
      ∃ t, vtx stale_block !! 1%nat = Some t ∧ IsCoinStake t = true)).
Proof.
  split.
  - split; [reflexivity |].
    apply (proj1 (CBlock_IsProofOfStake_spec header_only_block)).
    reflexivity.
  - split; [discriminate |].
    apply (proj2 (CBlock_IsProofOfStake_spec stale_block)).
    discriminate.
Defined.

Lemma CBlock_coinstake_derivation_witness :
  vtx stale_block !! 1%nat = Some coinstake ∧
  IsCoinStake coinstake = true ∧
  fStake (header stale_block) = false ∧
  CBlock_IsProofOfStake stale_block = Ok true ∧
  CBlock_PrevoutStake stale_block = Ok (170, 0) ∧
  CBlock_StakeTime stale_block = Ok 1600000000.
Proof.
  split; [reflexivity |]. split; [reflexivity |]. split; [reflexivity |].
  destruct (CBlock_coinstake_derivation stale_block coinstake
              eq_refl eq_refl) as (_ & Hf & _ & Hp & Ht).
  split; [exact Hf |]. split; [| exact Ht].
  exact (Hp (170, 0) eq_refl).
Defined.

Lemma CBlock_no_coinstake_derivation_witness :
  vtx pow_block !! 1%nat = Some coinbase ∧
  IsCoinStake coinbase = false ∧
  fStake (header pow_block) = true ∧
  CBlock_IsProofOfStake pow_block = Ok false ∧
  CBlock_PrevoutStake pow_block = Ok (0, 4294967295) ∧
  CBlock_StakeTime pow_block = Ok 0.
Proof.
  split; [reflexivity |]. split; [reflexivity |]. split; [reflexivity |].
  exact (CBlock_no_coinstake_derivation pow_block coinbase eq_refl eq_refl).
Defined.

Lemma CBlock_single_transaction_witness :
  length (vtx single_tx_block) = 1%nat ∧
  fStake (header single_tx_block) = true ∧
  CBlock_IsProofOfStake single_tx_block = Ok false ∧
  CBlock_PrevoutStake single_tx_block = Ok (0, 4294967295) ∧
  CBlock_StakeTime single_tx_block = Ok 0.
Proof.
  split; [reflexivity |]. split; [reflexivity |].
  exact (CBlock_single_transaction single_tx_block eq_refl).
Defined.

Lemma CBlock_GetBlockHeader_spec_witness :
  CBlock_PrevoutStake stale_block = Ok (170, 0) ∧
  ∃ h, CBlock_GetBlockHeader stale_block = Ok h ∧
    fStake (header stale_block) = false ∧ fStake h = true ∧
    prevoutStake h = (170, 0) ∧ nStakeTime h = 1600000000.
Proof.
  split; [reflexivity |].
  destruct (CBlock_GetBlockHeader_spec stale_block (170, 0) eq_refl)
    as (h & Hh & _ & _ & _ & _ & _ & _ & _ & _ & Hf & Hp & Ht).
  exists h. split; [exact Hh |]. split; [reflexivity |].
  change (Ok true = Ok (fStake h)) in Hf.
  change (Ok (170, 0) = Ok (prevoutStake h)) in Hp.
  change (Ok 1600000000 = Ok (nStakeTime h)) in Ht.
  split; [congruence |]. split; congruence.
Defined.

Lemma CBlock_GetProofOfStake_header_only_witness :
  vtx header_only_block = [] ∧
  fStake (header header_only_block) = true ∧
  CBlock_of_header (ObjHeader pos_header) = Ok header_only_block ∧
  CBlock_PrevoutStake header_only_block = Ok (170, 0) ∧
  CBlock_StakeTime header_only_block = Ok 1600000000 ∧
  CBlock_GetProofOfStake header_only_block = Fault OutOfRange.
Proof.
  split; [reflexivity |]. split; [reflexivity |]. split; [reflexivity |].
  exact (proj2 (CBlock_GetProofOfStake_header_only header_only_block
                  eq_refl eq_refl)).
Defined.

(** That the destination is a plain header matters.  When a block
    whose stored stake fields are stale is assigned to itself through a
    header-typed reference, the guard skips the copy and the block's
    stored [fStake], [prevoutStake] and [nStakeTime] stay different
    from what its virtual members return. *)
Lemma CBlockHeader_assign_self_keeps_stale :
  CBlockHeader_assign 1 1 lone_block = Ok lone_block ∧
  lone_block !! 1%nat = Some (ObjBlock stale_block) ∧
  IsProofOfStake (ObjBlock stale_block) = Ok true ∧
  fStake (base (ObjBlock stale_block)) = false ∧
  PrevoutStake (ObjBlock stale_block) = Ok (170, 0) ∧
  prevoutStake (base (ObjBlock stale_block)) = (0, 4294967295) ∧
  StakeTime (ObjBlock stale_block) = Ok 1600000000 ∧
  nStakeTime (base (ObjBlock stale_block)) = 0.
Proof.
  assert (lone_block !! 1%nat = Some (ObjBlock stale_block)) as Hl
    by apply lookup_singleton_eq.
  split; [| by repeat split].
  unfold CBlockHeader_assign, deref. rewrite Hl. cbn.
  by rewrite decide_False by (intros H; by apply H).
Qed.

Lemma CBlockHeader_assign_spec_witness :
  two_objects !! 1%nat = Some (ObjHeader pow_header) ∧
  two_objects !! 2%nat = Some (ObjBlock stale_block) ∧
  PrevoutStake (ObjBlock stale_block) = Ok (170, 0) ∧
  ∃ h, CBlockHeader_assign 1 2 two_objects =
         Ok (<[1%nat := ObjHeader h]> two_objects) ∧
    IsProofOfStake (ObjBlock stale_block) = Ok (fStake h) ∧
    PrevoutStake (ObjBlock stale_block) = Ok (prevoutStake h) ∧
    StakeTime (ObjBlock stale_block) = Ok (nStakeTime h).
Proof.
  assert (two_objects !! 1%nat = Some (ObjHeader pow_header)) as H1
    by apply lookup_insert_eq.
  assert (two_objects !! 2%nat = Some (ObjBlock stale_block)) as H2.
  { unfold two_objects. rewrite lookup_insert_ne by done.
    apply lookup_singleton_eq. }
  split; [exact H1 |]. split; [exact H2 |]. split; [reflexivity |].
  destruct (CBlockHeader_assign_spec two_objects 1 2 _ _ (170, 0) H1 H2
              eq_refl) as [Hne _].
  destruct (Hne ltac:(done)) as (h & Ha & _ & _ & _ & Hf & Hp & Ht).
  exists h. split; [exact Ha |]. split; [exact Hf |].
  split; [exact Hp | exact Ht].
Defined.

Lemma CBlockHeader_assign_to_header_witness :
  two_objects !! 1%nat = Some (ObjHeader pow_header) ∧
  two_objects !! 2%nat = Some (ObjBlock stale_block) ∧
  fStake pow_header = false ∧
  ∃ σ' h', CBlockHeader_assign 1 2 two_objects = Ok σ' ∧
    σ' !! 1%nat = Some (ObjHeader h') ∧
    σ' !! 2%nat = Some (ObjBlock stale_block) ∧
    IsProofOfStake (ObjBlock stale_block) = Ok (fStake h') ∧
    PrevoutStake (ObjBlock stale_block) = Ok (prevoutStake h') ∧
    StakeTime (ObjBlock stale_block) = Ok (nStakeTime h') ∧
    fStake h' = true.
Proof.
  assert (two_objects !! 1%nat = Some (ObjHeader pow_header)) as H1
    by apply lookup_insert_eq.
  assert (two_objects !! 2%nat = Some (ObjBlock stale_block)) as H2.
  { unfold two_objects. rewrite lookup_insert_ne by done.
    apply lookup_singleton_eq. }
  split; [exact H1 |]. split; [exact H2 |]. split; [reflexivity |].
  destruct (CBlockHeader_assign_to_header two_objects 1 2 _ _ H1 H2)
    as [Hafter Hruns].
  destruct Hruns as [σ' Ha].
  { exists (170, 0). reflexivity. }
  destruct (Hafter σ' Ha) as (h' & Hl1 & Hl2 & Hf & Hp & Ht).
  exists σ', h'. split; [exact Ha |]. split; [exact Hl1 |].
  split; [exact Hl2 |]. split; [exact Hf |]. split; [exact Hp |].
  split; [exact Ht |].
  change (Ok true = Ok (fStake h')) in Hf. congruence.
Defined.

Lemma Serialize_refreshes_stake_fields_witness :
  IsProofOfStake (ObjBlock stale_block) = Ok true ∧
  PrevoutStake (ObjBlock stale_block) = Ok (170, 0) ∧
  StakeTime (ObjBlock stale_block) = Ok 1600000000 ∧
  fStake (header stale_block) = false ∧
  CBlockHeader_Serialize (ObjBlock stale_block) (mkStream 1 70015 []) =
    Ok (ObjBlock
          (set_header (materialize true (170, 0) 1600000000 pow_header)
             stale_block),
        mkStream 1 70015
          (wire_header (materialize true (170, 0) 1600000000 pow_header))).
Proof.
  split; [reflexivity |]. split; [reflexivity |]. split; [reflexivity |].
  split; [reflexivity |].
  exact (proj1 (Serialize_refreshes_stake_fields (ObjBlock stale_block)
                  (mkStream 1 70015 []) true (170, 0) 1600000000
                  eq_refl eq_refl eq_refl)).
Defined.

Lemma CBlockLocator_Serialize_spec_witness :
  Z.land 1 SER_GETHASH = 0 ∧
  Z.land 4 SER_GETHASH ≠ 0 ∧
  CBlockLocator_Serialize locator (mkStream 1 70015 []) =
    Ok (locator,
        mkStream 1 70015
          (put ser_int 70015 ++ put ser_vuint256 (vHave locator))) ∧
  CBlockLocator_Serialize locator (mkStream 4 70015 []) =
    Ok (locator, mkStream 4 70015 (put ser_vuint256 (vHave locator))).
Proof.
  split; [reflexivity |]. split; [discriminate |].
  exact (CBlockLocator_Serialize_spec locator 1 4 70015 []
           eq_refl ltac:(discriminate)).
Defined.

Lemma fits_pos_header : fits_header pos_header.
Proof.
  repeat split; cbn; try lia; repeat constructor.
Qed.

Lemma fits_stale_block :
  fits_header (materialize true (170, 0) 1600000000 pow_header) ∧
  fits (ser_vtx 1 70015) (vtx stale_block).
Proof.
  split.
  - repeat split; cbn; try lia; repeat constructor.
  - cbn. split; [lia |].
    repeat constructor; cbn; lia.
Qed.

Lemma decode_encode_witness :
  fits_header pos_header ∧
  CBlockHeader_Unserialize (ObjHeader CBlockHeader_new)
    (mkStream 1 70015 (wire_header pos_header)) =
    Ok (ObjHeader pos_header, mkStream 1 70015 []) ∧
  CBlock_GetBlockHeader stale_block =
    Ok (materialize true (170, 0) 1600000000 pow_header) ∧
  CBlock_Unserialize CBlock_new
    (mkStream 1 70015
       (wire_block 1 70015
          (materialize true (170, 0) 1600000000 pow_header)
          (vtx stale_block))) =
    Ok ({| header := materialize true (170, 0) 1600000000 pow_header;
           vtx := vtx stale_block;
           fChecked := false |},
        mkStream 1 70015 []) ∧
  CBlockLocator_Unserialize CBlockLocator_new
    (mkStream 4 70015 (wire_locator 4 70015 locator)) =
    Ok (locator, mkStream 4 70015 []).
Proof.
  destruct (decode_encode (Law := ser_lawful)) as (Hh & Hb & Hl).
  split; [exact fits_pos_header |].
  split.
  { pose proof (proj2 (Hh pos_header 1 70015 [] [] fits_pos_header)) as H.
    rewrite app_nil_r in H. exact H. }
  split; [reflexivity |].
  split.
  { pose proof (proj2 (Hb stale_block _ 1 70015 [] [] eq_refl
                         (proj1 fits_stale_block)
                         (proj2 fits_stale_block))) as H.
    rewrite app_nil_r in H. exact H. }
  assert (fits ser_vuint256 (vHave locator)) as Fl.
  { cbn. split; [lia |]. repeat constructor; cbn; lia. }
  pose proof (proj2 (Hl locator 4 70015 [] []
                       ltac:(discriminate) Fl)) as H.
  rewrite app_nil_r in H. exact H.
Defined.

End Instances.

(** * Further properties of the stake members *)

Section MoreBlockFacts.
Context `{Ext : External}.

(** X1.  [IsProofOfWork], which [CBlock] does not override, always
    returns and is the negation of the virtual [IsProofOfStake] of the
    object it runs on; on a block with a transaction at index 1 it is
    the negation of that transaction's coinstake mark, whatever the
    header stores. *)
Theorem IsProofOfWork_spec (o : Object) :
  (∃ f, IsProofOfStake o = Ok f ∧ IsProofOfWork o = Ok (negb f)) ∧
  (∀ b t, o = ObjBlock b → vtx b !! 1%nat = Some t →
     IsProofOfWork o = Ok (negb (IsCoinStake t))).
Proof.
  split.
  - destruct (IsProofOfStake_total o) as [f Hf]. exists f.
    split; [done |]. unfold IsProofOfWork. by rewrite Hf.
  - intros b t -> Ht. unfold IsProofOfWork. cbn.
    by rewrite (CBlock_IsProofOfStake_second b t Ht).
Qed.

(** X2.  On a block with at least one transaction [GetProofOfStake] is
    the pair of [PrevoutStake] and [StakeTime], out-of-range reads
    included. *)
Theorem CBlock_GetProofOfStake_pair (b : CBlock) :
  vtx b ≠ [] →
  CBlock_GetProofOfStake b =
    (p ← CBlock_PrevoutStake b; t ← CBlock_StakeTime b; Ok (p, t)).
Proof.
  destruct b as [h v c].
  destruct (vtx_shape v) as [-> | [[t0 ->] | (t0 & t1 & rest & ->)]];
    cbn; intros Hne; [done | reflexivity |].
  unfold CBlock_GetProofOfStake, CBlock_PrevoutStake, CBlock_StakeTime,
    CBlock_IsProofOfStake, at_. cbn.
  destruct (IsCoinStake t1); cbn; [| done].
  by destruct (vin t1).
Qed.

(** X3.  On a block without transactions whose stored [fStake] is
    clear, [GetProofOfStake] returns the null outpoint and time 0 while
    [PrevoutStake] and [StakeTime] return the stored fields: the pair
    and the two members agree only if the stored fields are null. *)
Theorem CBlock_GetProofOfStake_header_only_pow (b : CBlock) :
  vtx b = [] →
  fStake (header b) = false →
  CBlock_GetProofOfStake b = Ok (COutPoint_null, 0) ∧
  CBlock_PrevoutStake b = Ok (prevoutStake (header b)) ∧
  CBlock_StakeTime b = Ok (nStakeTime (header b)).
Proof.
  destruct b as [h v c]; cbn. intros -> E.
  unfold CBlock_GetProofOfStake, CBlock_PrevoutStake, CBlock_StakeTime,
    CBlock_IsProofOfStake. cbn. by rewrite E.
Qed.

(** X4.  With at least one transaction, none of the four stake members
    reads the header: replacing the whole header sub-object leaves
    their results unchanged. *)
Theorem CBlock_stake_ignores_header (b : CBlock) (h' : CBlockHeader) :
  vtx b ≠ [] →
  CBlock_IsProofOfStake (mkBlock h' (vtx b) (fChecked b)) =
    CBlock_IsProofOfStake b ∧
  CBlock_PrevoutStake (mkBlock h' (vtx b) (fChecked b)) =
    CBlock_PrevoutStake b ∧
  CBlock_StakeTime (mkBlock h' (vtx b) (fChecked b)) = CBlock_StakeTime b ∧
  CBlock_GetProofOfStake (mkBlock h' (vtx b) (fChecked b)) =
    CBlock_GetProofOfStake b.
Proof.
  destruct b as [h v c]; cbn. by destruct v.
Qed.

(** X5.  [CBlock(header)], for a source whose stake outpoint can be
    read, builds a block with no transaction and a clear [fChecked]
    whose [IsProofOfStake], [PrevoutStake] and [StakeTime] are those of
    the source (a header or a block), and whose [IsNull], block time and
    eight plain fields are the source's. *)
Theorem CBlock_of_header_spec (o : Object) (p : COutPoint) :
  PrevoutStake o = Ok p →
  ∃ b, CBlock_of_header o = Ok b ∧
    vtx b = [] ∧ fChecked b = false ∧
    CBlock_IsProofOfStake b = IsProofOfStake o ∧
    CBlock_PrevoutStake b = PrevoutStake o ∧
    CBlock_StakeTime b = StakeTime o ∧
    CBlockHeader_IsNull (header b) = CBlockHeader_IsNull (base o) ∧
    CBlockHeader_GetBlockTime (header b) = CBlockHeader_GetBlockTime (base o) ∧
    nVersion (header b) = nVersion (base o) ∧
    hashPrevBlock (header b) = hashPrevBlock (base o) ∧
    hashMerkleRoot (header b) = hashMerkleRoot (base o) ∧
    nTime (header b) = nTime (base o) ∧
    nBits (header b) = nBits (base o) ∧
    nNonce (header b) = nNonce (base o) ∧
    hashStateRoot (header b) = hashStateRoot (base o) ∧
    vchBlockSig (header b) = vchBlockSig (base o).
Proof.
  intros Hp.
  destruct (IsProofOfStake_total o) as [f Hf].
  destruct (StakeTime_total o) as [t Ht].
  unfold CBlock_of_header. rewrite (header_copy_spec o f p t Hf Hp Ht).
  cbn. eexists. split; [reflexivity |].
  rewrite Hf, Hp, Ht. by repeat split.
Qed.

(** X6.  A block built from a plain header gives that header back:
    [CBlock(h).GetBlockHeader()] is [h], all eleven fields. *)
Theorem CBlock_of_header_GetBlockHeader (h : CBlockHeader) :
  ∃ b, CBlock_of_header (ObjHeader h) = Ok b ∧ CBlock_GetBlockHeader b = Ok h.
Proof. eexists. split; [reflexivity |]. by destruct h. Qed.

(** X7.  Assigning a block to another object through [operator=] stores
    exactly the header [GetBlockHeader] returns for that block. *)
Theorem CBlockHeader_assign_from_block (σ : gmap nat Object)
    (this other : nat) (d : Object) (b : CBlock) (h : CBlockHeader) :
  this ≠ other →
  σ !! this = Some d →
  σ !! other = Some (ObjBlock b) →
  CBlock_GetBlockHeader b = Ok h →
  CBlockHeader_assign this other σ = Ok (<[this := with_base h d]> σ).
Proof.
  intros Hne Hd Ho Hh. unfold CBlockHeader_assign, deref.
  rewrite Hd, Ho. cbn [mbind res_bind]. rewrite decide_True by done.
  change (header_copy (ObjBlock b)) with (CBlock_GetBlockHeader b).
  by rewrite Hh.
Qed.

(** X8.  [operator=] between different objects writes the destination's
    header sub-object only: every other object is as before, the eight
    plain fields are the source's, a destination that is a block keeps
    its transactions and its [fChecked], and the destination keeps its
    dynamic type. *)
Theorem CBlockHeader_assign_frame (σ : gmap nat Object) (this other : nat)
    (d o : Object) (p : COutPoint) :
  this ≠ other →
  σ !! this = Some d →
  σ !! other = Some o →
  PrevoutStake o = Ok p →
  ∃ σ' d', CBlockHeader_assign this other σ = Ok σ' ∧
    σ' !! this = Some d' ∧
    (∀ a, a ≠ this → σ' !! a = σ !! a) ∧
    nVersion (base d') = nVersion (base o) ∧
    hashPrevBlock (base d') = hashPrevBlock (base o) ∧
    hashMerkleRoot (base d') = hashMerkleRoot (base o) ∧
    nTime (base d') = nTime (base o) ∧
    nBits (base d') = nBits (base o) ∧
    nNonce (base d') = nNonce (base o) ∧
    hashStateRoot (base d') = hashStateRoot (base o) ∧
    vchBlockSig (base d') = vchBlockSig (base o) ∧
    (∀ b, d = ObjBlock b →
       ∃ b', d' = ObjBlock b' ∧ vtx b' = vtx b ∧ fChecked b' = fChecked b) ∧
    (∀ h0, d = ObjHeader h0 → d' = ObjHeader (base d')).
Proof.
  intros Hne Hd Ho Hp. unfold CBlockHeader_assign, deref.
  rewrite Hd, Ho. cbn. rewrite decide_True by done.
  destruct (IsProofOfStake_total o) as [f Hf].
  destruct (StakeTime_total o) as [t Ht].
  rewrite (header_copy_spec o f p t Hf Hp Ht). cbn.
  eexists. eexists. split; [reflexivity |].
  split; [apply lookup_insert_eq |].
  split; [intros a Ha; by apply lookup_insert_ne |].
  rewrite base_with_base. cbn.
  repeat (split; [reflexivity |]).
  split.
  - intros b ->. cbn. eexists. by repeat split.
  - by intros h0 ->.
Qed.

End MoreBlockFacts.

(** * Further properties of serialization *)

Section MoreWriteFacts.
Context `{Ser : Serializers}.

Lemma virtual_after_materialize (o : Object) (f : bool) (p : COutPoint)
    (t : Z) :
  IsProofOfStake o = Ok f → PrevoutStake o = Ok p → StakeTime o = Ok t →
  IsProofOfStake (with_base (materialize f p t (base o)) o) = Ok f ∧
  PrevoutStake (with_base (materialize f p t (base o)) o) = Ok p ∧
  StakeTime (with_base (materialize f p t (base o)) o) = Ok t.
Proof.
  destruct o as [h0 | [h0 v c]]; cbn; [done |].
  unfold CBlock_PrevoutStake, CBlock_StakeTime, CBlock_IsProofOfStake; cbn.
  by destruct v.
Qed.

Lemma materialize_stored (h : CBlockHeader) :
  materialize (fStake h) (prevoutStake h) (nStakeTime h) h = h.
Proof. by destruct h. Qed.

(** X9.  Serializing through the header's member, though it writes into
    the object, changes nothing a caller can observe through the
    members: the three virtual results, the eight plain fields, the
    dynamic type, a block's transactions and [fChecked], and the
    stream's type and version are as before; a plain header is left
    exactly as it was. *)
Theorem Serialize_keeps_observable_state (o : Object) (s : Stream)
    (p : COutPoint) :
  PrevoutStake o = Ok p →
  ∃ o' s', CBlockHeader_Serialize o s = Ok (o', s') ∧
    IsProofOfStake o' = IsProofOfStake o ∧
    PrevoutStake o' = PrevoutStake o ∧
    StakeTime o' = StakeTime o ∧
    nVersion (base o') = nVersion (base o) ∧
    hashPrevBlock (base o') = hashPrevBlock (base o) ∧
    hashMerkleRoot (base o') = hashMerkleRoot (base o) ∧
    nTime (base o') = nTime (base o) ∧
    nBits (base o') = nBits (base o) ∧
    nNonce (base o') = nNonce (base o) ∧
    hashStateRoot (base o') = hashStateRoot (base o) ∧
    vchBlockSig (base o') = vchBlockSig (base o) ∧
    GetType s' = GetType s ∧ GetVersion s' = GetVersion s ∧
    (∀ b, o = ObjBlock b →
       ∃ b', o' = ObjBlock b' ∧ vtx b' = vtx b ∧ fChecked b' = fChecked b) ∧
    (∀ h, o = ObjHeader h → o' = o).
Proof.
  intros Hp.
  destruct (IsProofOfStake_total o) as [f Hf].
  destruct (StakeTime_total o) as [t Ht].
  destruct (virtual_after_materialize o f p t Hf Hp Ht) as (Hf' & Hp' & Ht').
  unfold CBlockHeader_Serialize.
  rewrite (CBlockHeader_SerializationOp_write o s f p t Hf Hp Ht). cbn.
  eexists. eexists. split; [reflexivity |].
  rewrite Hf', Hp', Ht', Hf, Hp, Ht, base_with_base. cbn.
  repeat (split; [reflexivity |]).
  split.
  - intros b ->. cbn. eexists. by repeat split.
  - intros h ->. cbn in *.
    injection Hf as <-. injection Hp as <-. injection Ht as <-.
    by rewrite materialize_stored.
Qed.

(** X10.  Serializing a block twice writes the same bytes twice: the
    block the first call leaves is written as the same image and is left
    unchanged by the second call. *)
Theorem CBlock_Serialize_idempotent (b : CBlock) (ty ver : Z)
    (pre pre2 : list byte) (p : COutPoint) :
  CBlock_PrevoutStake b = Ok p →
  ∃ b' out,
    CBlock_Serialize b (mkStream ty ver pre) =
      Ok (b', mkStream ty ver (pre ++ out)) ∧
    CBlock_Serialize b' (mkStream ty ver pre2) =
      Ok (b', mkStream ty ver (pre2 ++ out)).
Proof.
  intros Hp.
  destruct (CBlock_IsProofOfStake_total b) as [f Hf].
  destruct (CBlock_StakeTime_total b) as [t Ht].
  destruct (virtual_after_materialize (ObjBlock b) f p t Hf Hp Ht)
    as (Hf' & Hp' & Ht').
  exists (set_header (materialize f p t (header b)) b).
  exists (wire_block ty ver (materialize f p t (header b)) (vtx b)).
  split.
  - by rewrite (CBlock_Serialize_write b _ f p t).
  - by rewrite (CBlock_Serialize_write _ _ f p t).
Qed.

(** X11.  The header image of a block is the image of its
    [GetBlockHeader] snapshot: serializing the block through the
    header's member and serializing the snapshot write the same bytes,
    so whatever is computed from the header bytes is the same for
    both. *)
Theorem header_image_of_block (b : CBlock) (h : CBlockHeader) (s : Stream) :
  CBlock_GetBlockHeader b = Ok h →
  CBlockHeader_Serialize (ObjBlock b) s =
    Ok (ObjBlock (set_header h b), stream_write s (wire_header h)) ∧
  CBlockHeader_Serialize (ObjHeader h) s =
    Ok (ObjHeader h, stream_write s (wire_header h)).
Proof.
  intros Hh.
  destruct (CBlock_GetBlockHeader_materialize b h Hh)
    as (f & p & t & Hf & Hp & Ht & ->).
  unfold CBlockHeader_Serialize. split.
  - by rewrite (CBlockHeader_SerializationOp_write (ObjBlock b) s f p t).
  - by rewrite (CBlockHeader_SerializationOp_write (ObjHeader _) s f p t).
Qed.

(** X12.  Whatever bytes the stream holds, decoding into a header, into
    a block that has no transaction (a new one), or into a locator
    either succeeds or fails with the stream's failure; it never reads
    out of range. *)
Theorem Unserialize_fails_only_by_stream :
  (∀ (h0 : CBlockHeader) (s : Stream),
     (∃ r, CBlockHeader_Unserialize (ObjHeader h0) s = Ok r) ∨
     CBlockHeader_Unserialize (ObjHeader h0) s = Fault IoFailure) ∧
  (∀ (target : CBlock) (s : Stream),
     vtx target = [] →
     (∃ r, CBlock_Unserialize target s = Ok r) ∨
     CBlock_Unserialize target s = Fault IoFailure) ∧
  (∀ (target : CBlockLocator) (s : Stream),
     (∃ r, CBlockLocator_Unserialize target s = Ok r) ∨
     CBlockLocator_Unserialize target s = Fault IoFailure).
Proof.
  split; [| split].
  - intros h0 s.
    unfold CBlockHeader_Unserialize, CBlockHeader_SerializationOp, READWRITE.
    cbn.
    repeat match goal with
    | |- context [match get ?c ?l with _ => _ end] =>
        destruct (get c l) as [[? ?] |]; cbn; [| by right]
    end.
    left. eauto.
  - intros [h0 v c] s; cbn. intros ->.
    unfold CBlock_Unserialize, CBlock_SerializationOp,
      CBlockHeader_SerializationOp, READWRITE.
    cbn.
    repeat match goal with
    | |- context [match get ?c ?l with _ => _ end] =>
        destruct (get c l) as [[? ?] |]; cbn; [| by right]
    end.
    left. eauto.
  - intros target s.
    unfold CBlockLocator_Unserialize, CBlockLocator_SerializationOp,
      READWRITE.
    cbn. destruct (Z.land (GetType s) SER_GETHASH =? 0); cbn.
    + repeat match goal with
      | |- context [match get ?c ?l with _ => _ end] =>
          destruct (get c l) as [[? ?] |]; cbn; [| by right]
      end.
      left. eauto.
    + repeat match goal with
      | |- context [match get ?c ?l with _ => _ end] =>
          destruct (get c l) as [[? ?] |]; cbn; [| by right]
      end.
      left. eauto.
Qed.

End MoreWriteFacts.

Section MoreReadFacts.
Context `{Ser : Serializers} {Law : SerializersLawful}.

(** X13.  Decoding a block image into any block whose stake outpoint can
    be read replaces its header and its transactions by those of the
    image and keeps its [fChecked].  The stake fields of the image are
    stored without being compared with the transactions: with a
    transaction at index 1 the decoded block's [IsProofOfStake] is that
    transaction's coinstake mark, whatever stake flag was on the
    wire. *)
Theorem CBlock_Unserialize_overwrites (target : CBlock) (q : COutPoint)
    (h : CBlockHeader) (v : list CTransaction) (ty ver : Z)
    (rest : list byte) :
  CBlock_PrevoutStake target = Ok q →
  fits_header h →
  fits (ser_vtx ty ver) v →
  CBlock_Unserialize target (mkStream ty ver (wire_block ty ver h v ++ rest)) =
    Ok (mkBlock h v (fChecked target), mkStream ty ver rest) ∧
  (∀ t, v !! 1%nat = Some t →
     CBlock_IsProofOfStake (mkBlock h v (fChecked target)) =
       Ok (IsCoinStake t)).
Proof.
  intros Hq Fh Fv. split.
  - unfold CBlock_Unserialize, CBlock_SerializationOp, wire_block.
    rewrite <- app_assoc.
    rewrite (CBlockHeader_SerializationOp_read (ObjBlock target) q) by done.
    cbn [mbind res_bind fst snd GetType GetVersion].
    rewrite READWRITE_read; [done | apply ser_vtx_lawful | done].
  - intros t Ht. by apply CBlock_IsProofOfStake_second.
Qed.

(** X14.  Decoding a locator image into any locator replaces the hashes
    it held by those of the image, in either context. *)
Theorem CBlockLocator_Unserialize_overwrites (target x : CBlockLocator)
    (ty ver : Z) (rest : list byte) :
  (Z.land ty SER_GETHASH = 0 → fits ser_int ver) →
  fits ser_vuint256 (vHave x) →
  CBlockLocator_Unserialize target
    (mkStream ty ver (wire_locator ty ver x ++ rest)) =
    Ok (x, mkStream ty ver rest).
Proof.
  destruct x as [v]. intros Fver Fv. cbn in Fv.
  unfold CBlockLocator_Unserialize, CBlockLocator_SerializationOp,
    wire_locator.
  cbn [GetType GetVersion vHave].
  destruct (Z.eqb_spec (Z.land ty SER_GETHASH) 0) as [E | _].
  - rewrite <- app_assoc.
    rewrite READWRITE_read; [| apply ser_int_lawful | by apply Fver].
    cbn [mbind res_bind fst snd].
    rewrite READWRITE_read; [done | apply ser_vuint256_lawful | done].
  - cbn [mbind res_bind fst snd app].
    rewrite READWRITE_read; [done | apply ser_vuint256_lawful | done].
Qed.

(** X15.  Header-first reconstruction keeps the classification: the
    header bytes of a block, decoded into a new header and given to
    [CBlock(header)], make a block without transactions whose
    [IsProofOfStake], [PrevoutStake] and [StakeTime] are those of the
    block the bytes came from. *)
Theorem header_first_reconstruction (b : CBlock) (h : CBlockHeader)
    (ty ver : Z) :
  CBlock_GetBlockHeader b = Ok h →
  fits_header h →
  ∃ out b',
    CBlockHeader_Serialize (ObjBlock b) (mkStream ty ver []) =
      Ok (ObjBlock (set_header h b), mkStream ty ver out) ∧
    CBlockHeader_Unserialize (ObjHeader CBlockHeader_new)
      (mkStream ty ver out) = Ok (ObjHeader h, mkStream ty ver []) ∧
    CBlock_of_header (ObjHeader h) = Ok b' ∧
    vtx b' = [] ∧
    CBlock_IsProofOfStake b' = CBlock_IsProofOfStake b ∧
    CBlock_PrevoutStake b' = CBlock_PrevoutStake b ∧
    CBlock_StakeTime b' = CBlock_StakeTime b.
Proof.
  intros Hh Fh.
  destruct (CBlock_GetBlockHeader_materialize b h Hh)
    as (f & p & t & Hf & Hp & Ht & Eh).
  exists (wire_header h). eexists. split; [| split; [| split]].
  - unfold CBlockHeader_Serialize.
    rewrite (CBlockHeader_SerializationOp_write (ObjBlock b) _ f p t)
      by done.
    by rewrite Eh.
  - unfold CBlockHeader_Unserialize.
    rewrite <- (app_nil_r (wire_header h)).
    by rewrite (CBlockHeader_SerializationOp_read _ COutPoint_null h).
  - reflexivity.
  - rewrite Hf, Hp, Ht, Eh. by repeat split.
Qed.

End MoreReadFacts.

(** * The further properties on explicit blocks *)

Section MoreInstances.
Import Sample.

Lemma CBlock_GetProofOfStake_pair_witness :
  vtx stale_block ≠ [] ∧
  CBlock_GetProofOfStake stale_block = Ok ((170, 0), 1600000000) ∧
  CBlock_GetProofOfStake stale_block =
    (p ← CBlock_PrevoutStake stale_block;
     t ← CBlock_StakeTime stale_block; Ok (p, t)).
Proof.
  split; [discriminate |]. split; [reflexivity |].
  apply (CBlock_GetProofOfStake_pair stale_block). discriminate.
Defined.

Lemma CBlock_GetProofOfStake_header_only_pow_witness :
  vtx (mkBlock (set_fStake false pos_header) [] false) = [] ∧
  fStake (header (mkBlock (set_fStake false pos_header) [] false)) = false ∧
  CBlock_GetProofOfStake (mkBlock (set_fStake false pos_header) [] false) =
    Ok ((0, 4294967295), 0) ∧
  CBlock_PrevoutStake (mkBlock (set_fStake false pos_header) [] false) =
    Ok (170, 0) ∧
  CBlock_StakeTime (mkBlock (set_fStake false pos_header) [] false) =
    Ok 1600000000.
Proof.
  split; [reflexivity |]. split; [reflexivity |].
  exact (CBlock_GetProofOfStake_header_only_pow
           (mkBlock (set_fStake false pos_header) [] false)
           eq_refl eq_refl).
Defined.

Lemma CBlock_stake_ignores_header_witness :
  vtx stale_block ≠ [] ∧
  CBlock_IsProofOfStake (mkBlock pos_header (vtx stale_block) true) =
    CBlock_IsProofOfStake stale_block ∧
  CBlock_PrevoutStake (mkBlock pos_header (vtx stale_block) true) =
    CBlock_PrevoutStake stale_block.
Proof.
  split; [discriminate |].
  destruct (CBlock_stake_ignores_header stale_block pos_header
              ltac:(discriminate)) as (Hf & Hp & _).
  split; [exact Hf | exact Hp].
Defined.

Lemma CBlock_of_header_spec_witness :
  PrevoutStake (ObjBlock stale_block) = Ok (170, 0) ∧
  ∃ b, CBlock_of_header (ObjBlock stale_block) = Ok b ∧
    vtx b = [] ∧
    CBlock_IsProofOfStake b = Ok true ∧
    CBlock_PrevoutStake b = Ok (170, 0) ∧
    CBlock_StakeTime b = Ok 1600000000 ∧
    nTime (header b) = 1600000016 ∧
    nBits (header b) = 486604799.
Proof.
  split; [reflexivity |].
  destruct (CBlock_of_header_spec (ObjBlock stale_block) (170, 0) eq_refl)
    as (b & Hb & Hv & _ & Hf & Hp & Ht & _ & _ & _ & _ & _ & Hti & Hbi & _).
  exists b. split; [exact Hb |]. split; [exact Hv |].
  split; [exact Hf |]. split; [exact Hp |]. split; [exact Ht |].
  split; [exact Hti | exact Hbi].
Defined.

Lemma CBlockHeader_assign_from_block_witness :
  (1 ≠ 2)%nat ∧
  two_objects !! 1%nat = Some (ObjHeader pow_header) ∧
  two_objects !! 2%nat = Some (ObjBlock stale_block) ∧
  CBlock_GetBlockHeader stale_block =
    Ok (materialize true (170, 0) 1600000000 pow_header) ∧
  CBlockHeader_assign 1 2 two_objects =
    Ok (<[1%nat := ObjHeader (materialize true (170, 0) 1600000000
                                pow_header)]> two_objects).
Proof.
  assert (two_objects !! 1%nat = Some (ObjHeader pow_header)) as H1
    by apply lookup_insert_eq.
  assert (two_objects !! 2%nat = Some (ObjBlock stale_block)) as H2.
  { unfold two_objects. rewrite lookup_insert_ne by done.
    apply lookup_singleton_eq. }
  split; [done |]. split; [exact H1 |]. split; [exact H2 |].
  split; [reflexivity |].
  exact (CBlockHeader_assign_from_block two_objects 1 2 _ stale_block _
           ltac:(done) H1 H2 eq_refl).
Defined.

Lemma CBlockHeader_assign_frame_witness :
  (2 ≠ 1)%nat ∧
  two_objects !! 2%nat = Some (ObjBlock stale_block) ∧
  two_objects !! 1%nat = Some (ObjHeader pow_header) ∧
  PrevoutStake (ObjHeader pow_header) = Ok (0, 4294967295) ∧
  ∃ σ' b', CBlockHeader_assign 2 1 two_objects = Ok σ' ∧
    σ' !! 2%nat = Some (ObjBlock b') ∧
    σ' !! 1%nat = Some (ObjHeader pow_header) ∧
    vtx b' = vtx stale_block ∧ fChecked b' = true.
Proof.
  assert (two_objects !! 1%nat = Some (ObjHeader pow_header)) as H1
    by apply lookup_insert_eq.
  assert (two_objects !! 2%nat = Some (ObjBlock stale_block)) as H2.
  { unfold two_objects. rewrite lookup_insert_ne by done.
    apply lookup_singleton_eq. }
  split; [done |]. split; [exact H2 |]. split; [exact H1 |].
  split; [reflexivity |].
  destruct (CBlockHeader_assign_frame two_objects 2 1 _ _ (0, 4294967295)
              ltac:(done) H2 H1 eq_refl)
    as (σ' & d' & Ha & Hd' & Hfr & _ & _ & _ & _ & _ & _ & _ & _ & Hb & _).
  destruct (Hb stale_block eq_refl) as (b' & -> & Hv & Hc).
  exists σ', b'. split; [exact Ha |]. split; [exact Hd' |].
  split; [by rewrite Hfr |]. split; [exact Hv | exact Hc].
Defined.

Lemma Serialize_keeps_observable_state_witness :
  PrevoutStake (ObjBlock stale_block) = Ok (170, 0) ∧
  ∃ o' s',
    CBlockHeader_Serialize (ObjBlock stale_block) (mkStream 1 70015 []) =
      Ok (o', s') ∧
    IsProofOfStake o' = Ok true ∧
    PrevoutStake o' = Ok (170, 0) ∧
    StakeTime o' = Ok 1600000000.
Proof.
  split; [reflexivity |].
  destruct (Serialize_keeps_observable_state (ObjBlock stale_block)
              (mkStream 1 70015 []) (170, 0) eq_refl)
    as (o' & s' & Hs & Hf & Hp & Ht & _).
  exists o', s'. split; [exact Hs |]. split; [exact Hf |].
  split; [exact Hp | exact Ht].
Defined.

Lemma CBlock_Serialize_idempotent_witness :
  CBlock_PrevoutStake stale_block = Ok (170, 0) ∧
  ∃ b' out,
    CBlock_Serialize stale_block (mkStream 1 70015 []) =
      Ok (b', mkStream 1 70015 ([] ++ out)) ∧
    CBlock_Serialize b' (mkStream 1 70015 []) =
      Ok (b', mkStream 1 70015 ([] ++ out)).
Proof.
  split; [reflexivity |].
  exact (CBlock_Serialize_idempotent stale_block 1 70015 [] [] (170, 0)
           eq_refl).
Defined.

Lemma header_image_of_block_witness :
  CBlock_GetBlockHeader stale_block =
    Ok (materialize true (170, 0) 1600000000 pow_header) ∧
  CBlockHeader_Serialize (ObjBlock stale_block) (mkStream 4 70015 []) =
    Ok (ObjBlock
          (set_header (materialize true (170, 0) 1600000000 pow_header)
             stale_block),
        stream_write (mkStream 4 70015 [])
          (wire_header (materialize true (170, 0) 1600000000 pow_header))) ∧
  CBlockHeader_Serialize
    (ObjHeader (materialize true (170, 0) 1600000000 pow_header))
    (mkStream 4 70015 []) =
    Ok (ObjHeader (materialize true (170, 0) 1600000000 pow_header),
        stream_write (mkStream 4 70015 [])
          (wire_header (materialize true (170, 0) 1600000000 pow_header))).
Proof.
  split; [reflexivity |].
  exact (header_image_of_block stale_block _ (mkStream 4 70015 []) eq_refl).
Defined.

Lemma CBlock_Unserialize_overwrites_witness :
  CBlock_PrevoutStake pow_block = Ok (0, 4294967295) ∧
  fits_header pos_header ∧
  fits (ser_vtx 1 70015) (vtx stale_block) ∧
  CBlock_Unserialize pow_block
    (mkStream 1 70015
       (wire_block 1 70015 pos_header (vtx stale_block) ++ [])) =
    Ok (mkBlock pos_header (vtx stale_block) false, mkStream 1 70015 []) ∧
  CBlock_IsProofOfStake (mkBlock pos_header (vtx stale_block) false) =
    Ok (IsCoinStake coinstake).
Proof.
  split; [reflexivity |]. split; [exact fits_pos_header |].
  split; [exact (proj2 fits_stale_block) |].
  destruct (CBlock_Unserialize_overwrites (Law := ser_lawful) pow_block
              (0, 4294967295) pos_header (vtx stale_block) 1 70015 []
              eq_refl fits_pos_header (proj2 fits_stale_block))
    as [Hu Hc].
  split; [exact Hu |]. exact (Hc coinstake eq_refl).
Defined.

Lemma Unserialize_fails_only_by_stream_witness :
  vtx CBlock_new = [] ∧
  ((∃ r, CBlock_Unserialize CBlock_new (mkStream 1 70015 [Byte.x01]) = Ok r) ∨
   CBlock_Unserialize CBlock_new (mkStream 1 70015 [Byte.x01]) =
     Fault IoFailure).
Proof.
  split; [reflexivity |].
  apply (proj1 (proj2 Unserialize_fails_only_by_stream)). reflexivity.
Defined.

Lemma fits_locator : fits ser_vuint256 (vHave locator).
Proof. cbn. split; [lia |]. repeat constructor; cbn; lia. Qed.

Lemma CBlockLocator_Unserialize_overwrites_witness :
  (Z.land 1 SER_GETHASH = 0 → fits ser_int 70015) ∧
  fits ser_vuint256 (vHave locator) ∧
  CBlockLocator_Unserialize (mkLocator [1; 2])
    (mkStream 1 70015 (wire_locator 1 70015 locator ++ [])) =
    Ok (locator, mkStream 1 70015 []).
Proof.
  assert (Z.land 1 SER_GETHASH = 0 → fits ser_int 70015) as Fv
    by (intros _; cbn; lia).
  split; [exact Fv |]. split; [exact fits_locator |].
  exact (CBlockLocator_Unserialize_overwrites (Law := ser_lawful)
           (mkLocator [1; 2]) locator 1 70015 [] Fv fits_locator).
Defined.

Lemma header_first_reconstruction_witness :
  CBlock_GetBlockHeader stale_block =
    Ok (materialize true (170, 0) 1600000000 pow_header) ∧
  fits_header (materialize true (170, 0) 1600000000 pow_header) ∧
  ∃ out b',
    CBlockHeader_Serialize (ObjBlock stale_block) (mkStream 1 70015 []) =
      Ok (ObjBlock
            (set_header (materialize true (170, 0) 1600000000 pow_header)
               stale_block),
          mkStream 1 70015 out) ∧
    CBlockHeader_Unserialize (ObjHeader CBlockHeader_new)
      (mkStream 1 70015 out) =
      Ok (ObjHeader (materialize true (170, 0) 1600000000 pow_header),
          mkStream 1 70015 []) ∧
    CBlock_of_header
      (ObjHeader (materialize true (170, 0) 1600000000 pow_header)) =
      Ok b' ∧
    vtx b' = [] ∧
    CBlock_IsProofOfStake b' = CBlock_IsProofOfStake stale_block ∧
    CBlock_PrevoutStake b' = CBlock_PrevoutStake stale_block ∧
    CBlock_StakeTime b' = CBlock_StakeTime stale_block.
Proof.
  split; [reflexivity |]. split; [exact (proj1 fits_stale_block) |].
  exact (header_first_reconstruction (Law := ser_lawful) stale_block _
           1 70015 eq_refl (proj1 fits_stale_block)).
Defined.

End MoreInstances.
